(** * Stdio/network bridges of the MCP gateway tools

    A shallow embedding of the two bridge scripts

    - [mcp_streaming_client.py]: [MCPStreamingClient], the stdio to HTTP
      bridge (request/response per input line), and
    - [python_tools/remote_claude_mcp_configs.py]: [MCPNetworkBridge], the
      stdio to TCP bridge (raw duplex relay),

    together with the properties their specification states about them.

    The Python code is written in a small monad of our own that threads a
    world state, emits the observable events of the process (writes to the
    standard streams, network calls, resource release) and propagates Python
    exceptions.  What the scripts call in the Python runtime and in third
    party libraries ([json.loads], [float.__repr__], [requests], [socket])
    is an explicit environment: the theorems hold for every behaviour of it. *)

From Stdlib Require Import String Ascii DecimalString SpecFloat.
From Stdlib Require Import Bool ZArith NArith Lia List.
Import ListNotations.

Set Implicit Arguments.
Set Warnings "-register-all,-abstract-large-number".


(* ================================================================== *)
(** * Part I: definitions                                              *)
(* ================================================================== *)

(** ** Python data *)

Module Py.

(** A Python [str] is a sequence of Unicode code points. *)
Definition pystr := list N.

(** Text literals: every character of the Rocq string is its own code
    point. *)
Definition py (s : string) : pystr :=
  map N_of_ascii (list_ascii_of_string s).

(** Text literals that contain double quotes are written with an
    apostrophe (code point 39) standing for the double quote (34). *)
Definition pyq (s : string) : pystr :=
  map (fun c => if N.eqb c 39 then 34%N else c) (py s).

Definition newline : N := 10.

Arguments py : simpl never.
Arguments pyq : simpl never.

(** [str.isspace] of one code point ([Py_UNICODE_ISSPACE]). *)
Definition is_space (c : N) : bool :=
  (((9 <=? c) && (c <=? 13)) || ((28 <=? c) && (c <=? 32))
   || (c =? 133) || (c =? 160) || (c =? 5760)
   || ((8192 <=? c) && (c <=? 8202))
   || (c =? 8232) || (c =? 8233) || (c =? 8239) || (c =? 8287)
   || (c =? 12288))%N.

Fixpoint dropwhile (p : N -> bool) (s : pystr) : pystr :=
  match s with
  | [] => []
  | c :: s' => if p c then dropwhile p s' else s
  end.

(** [s.lstrip()], [s.rstrip()], [s.strip()] and [s.rstrip(chars)]. *)
Definition lstrip (s : pystr) : pystr := dropwhile is_space s.
Definition rstrip (s : pystr) : pystr := rev (dropwhile is_space (rev s)).
Definition strip (s : pystr) : pystr := rstrip (lstrip s).

Definition mem (c : N) (chars : pystr) : bool := existsb (N.eqb c) chars.
Definition rstrip_chars (chars s : pystr) : pystr :=
  rev (dropwhile (fun c => mem c chars) (rev s)).

(** [not s] for a string. *)
Definition is_empty (s : pystr) : bool :=
  match s with [] => true | _ => false end.

(** The values [json.loads] builds and [json.dumps] accepts: [None],
    [bool], [int], [float], [str], [list] and [dict] with [str] keys
    (in insertion order). *)
Inductive pyvalue : Type :=
| PyNone
| PyBool (b : bool)
| PyInt (z : Z)
| PyFloat (f : spec_float)
| PyStr (s : pystr)
| PyList (items : list pyvalue)
| PyDict (items : list (pystr * pyvalue)).

(** Truth value testing, as in [if response:]. *)
Definition truthy (v : pyvalue) : bool :=
  match v with
  | PyNone => false
  | PyBool b => b
  | PyInt z => negb (z =? 0)%Z
  | PyFloat (S754_zero _) => false
  | PyFloat _ => true
  | PyStr s => negb (is_empty s)
  | PyList [] => false
  | PyList _ => true
  | PyDict [] => false
  | PyDict _ => true
  end.

(** The exception classes the bridges can meet, with the part of the
    class hierarchy their [except] clauses test. *)
Inductive exn_class : Type :=
| KeyboardInterrupt
| SystemExit (code : Z)
| JSONDecodeError            (* json.JSONDecodeError *)
| RequestsJSONDecodeError    (* requests.exceptions.JSONDecodeError *)
| HTTPError
| ConnectionError
| Timeout
| OSError
| RecursionError
| UnicodeDecodeError
| RuntimeError.

Record exn : Type := Exn { cls : exn_class; msg : pystr }.

(** [isinstance(e, Exception)]: everything but the two classes that
    derive from [BaseException] directly. *)
Definition is_Exception (e : exn) : bool :=
  match cls e with
  | KeyboardInterrupt | SystemExit _ => false
  | _ => true
  end.

(** [isinstance(e, json.JSONDecodeError)]; the class of [requests]
    inherits from it. *)
Definition is_JSONDecodeError (e : exn) : bool :=
  match cls e with
  | JSONDecodeError | RequestsJSONDecodeError => true
  | _ => false
  end.

Definition is_KeyboardInterrupt (e : exn) : bool :=
  match cls e with
  | KeyboardInterrupt => true
  | _ => false
  end.

(** The exit status of the interpreter when the main function ends with
    result [r]: 0 on return, the code of an uncaught [SystemExit], 130
    for an uncaught interrupt, 1 for any other uncaught exception. *)
Definition exit_status (A : Type) (r : A + exn) : Z :=
  match r with
  | inl _ => 0
  | inr e => match cls e with
             | SystemExit code => code
             | KeyboardInterrupt => 130
             | _ => 1
             end
  end.

End Py.
Import Py.

(** ** The effect monad

    A computation reads a world [W], emits events of type [E] and either
    returns or raises. *)

Module Eff.
Section Eff.
Variables E W : Type.

Definition M (A : Type) : Type := W -> list E * W * (A + exn).

Definition ret (A : Type) (a : A) : M A := fun w => ([], w, inl a).

Definition bind (A B : Type) (m : M A) (f : A -> M B) : M B :=
  fun w =>
    let '(t1, w1, r) := m w in
    match r with
    | inl a => let '(t2, w2, r2) := f a w1 in (t1 ++ t2, w2, r2)
    | inr e => (t1, w1, inr e)
    end.

Definition emit (ev : E) : M unit := fun w => ([ev], w, inl tt).
Definition raise (A : Type) (e : exn) : M A := fun w => ([], w, inr e).
Definition get : M W := fun w => ([], w, inl w).
Definition put (w : W) : M unit := fun _ => ([], w, inl tt).

(** [try: body  except C as e: handler e], [C] given by its test. *)
Definition try_except (A : Type) (body : M A) (catches : exn -> bool)
           (handler : exn -> M A) : M A :=
  fun w =>
    let '(t1, w1, r) := body w in
    match r with
    | inl a => (t1, w1, inl a)
    | inr e =>
        if catches e
        then let '(t2, w2, r2) := handler e w1 in (t1 ++ t2, w2, r2)
        else (t1, w1, inr e)
    end.

(** [try: body  finally: final]. *)
Definition try_finally (A : Type) (body : M A) (final : M unit) : M A :=
  fun w =>
    let '(t1, w1, r) := body w in
    let '(t2, w2, r2) := final w1 in
    (t1 ++ t2, w2, match r2 with inl _ => r | inr e2 => inr e2 end).

Definition trace_of (A : Type) (x : list E * W * (A + exn)) : list E :=
  fst (fst x).
Definition world_of (A : Type) (x : list E * W * (A + exn)) : W :=
  snd (fst x).
Definition result_of (A : Type) (x : list E * W * (A + exn)) : A + exn :=
  snd x.
End Eff.

Arguments ret {E W A} a.
Arguments bind {E W A B} m f.
Arguments emit {E W} ev.
Arguments raise {E W A} e.
Arguments get {E W}.
Arguments put {E W} w.
Arguments try_except {E W A} body catches handler.
Arguments try_finally {E W A} body final.
Arguments trace_of {E W A} x.
Arguments world_of {E W A} x.
Arguments result_of {E W A} x.
End Eff.

Declare Scope eff_scope.
Delimit Scope eff_scope with eff.
Notation "x <- m ;; k" := (Eff.bind m (fun x => k))
  (at level 61, m at next level, right associativity) : eff_scope.
Notation "m ;; k" := (Eff.bind m (fun _ => k))
  (at level 61, right associativity) : eff_scope.

(** ** [json.dumps]

    The encoder with its default options ([ensure_ascii=True], separators
    [", "] and [": "], [allow_nan=True], no indentation).  The shortest
    round-trip printing of a finite float, [float.__repr__], is a
    parameter. *)

Module Json.
Section Dumps.
Variable float_repr : spec_float -> pystr.

Definition hex_digit (d : N) : N :=
  (if d <? 10 then 48 + d else 87 + d)%N.

(** ['{0:04x}'.format(n)] for [n < 0x10000]. *)
Definition hex4 (n : N) : pystr :=
  [hex_digit ((n / 4096) mod 16); hex_digit ((n / 256) mod 16);
   hex_digit ((n / 16) mod 16); hex_digit (n mod 16)]%N.

(** A backslash, [u] and four hexadecimal digits. *)
Definition u_escape (n : N) : pystr := 92%N :: 117%N :: hex4 n.

(** The replacement of one character in [encode_basestring_ascii]:
    the short escapes of [ESCAPE_DCT], the printable ASCII characters as
    they are, anything else as one or (above the basic plane) two
    [u]-escapes. *)
Definition escape_char (c : N) : pystr :=
  (if c =? 92 then [92; 92]
   else if c =? 34 then [92; 34]
   else if c =? 8 then [92; 98]
   else if c =? 12 then [92; 102]
   else if c =? 10 then [92; 110]
   else if c =? 13 then [92; 114]
   else if c =? 9 then [92; 116]
   else if (32 <=? c) && (c <=? 126) then [c]
   else if c <? 65536 then u_escape c
   else u_escape (N.lor 55296 (N.land (N.shiftr (c - 65536) 10) 1023))
        ++ u_escape (N.lor 56320 (N.land (c - 65536) 1023)))%N.

Definition encode_basestring_ascii (s : pystr) : pystr :=
  34%N :: flat_map escape_char s ++ [34%N].

(** [int.__repr__]. *)
Definition int_repr (z : Z) : pystr :=
  py (NilZero.string_of_int (Z.to_int z)).

(** [floatstr] of the encoder. *)
Definition floatstr (f : spec_float) : pystr :=
  match f with
  | S754_nan => py "NaN"
  | S754_infinity false => py "Infinity"
  | S754_infinity true => py "-Infinity"
  | _ => float_repr f
  end.

(** [sep.join(parts)]. *)
Fixpoint join (sep : pystr) (parts : list pystr) : pystr :=
  match parts with
  | [] => []
  | [p] => p
  | p :: rest => p ++ sep ++ join sep rest
  end.

Fixpoint dumps (v : pyvalue) : pystr :=
  match v with
  | PyNone => py "null"
  | PyBool true => py "true"
  | PyBool false => py "false"
  | PyInt z => int_repr z
  | PyFloat f => floatstr f
  | PyStr s => encode_basestring_ascii s
  | PyList items =>
      py "[" ++ join (py ", ") (map dumps items) ++ py "]"
  | PyDict items =>
      py "{"
      ++ join (py ", ")
           (map (fun kv => encode_basestring_ascii (fst kv)
                           ++ py ": " ++ dumps (snd kv)) items)
      ++ py "}"
  end.
End Dumps.

(** The printable ASCII characters. *)
Definition printable (c : N) : bool := ((32 <=? c) && (c <=? 126))%N.

(** A text that is one line: no newline but the one that ends it. *)
Definition one_line (s : pystr) : Prop :=
  exists body : pystr, s = body ++ [newline] /\ ~ In newline body.
End Json.

(** ** Stand-ins for the runtime, used to evaluate scenarios

    [Stub.loads] decodes the fragment of JSON without fractions,
    exponents and [u]-escapes, on which it agrees with [json.loads];
    anything else is a decode error.  [Stub.float_repr] prints the two
    zeros.  Neither is used by a general theorem. *)

Module Stub.

Definition is_ws (c : N) : bool :=
  ((c =? 32) || (c =? 9) || (c =? 10) || (c =? 13))%N.

Definition is_digit (c : N) : bool := ((48 <=? c) && (c <=? 57))%N.

Fixpoint skip_ws (s : pystr) : pystr :=
  match s with
  | c :: r => if is_ws c then skip_ws r else s
  | [] => []
  end.

Definition unescape (c : N) : option N :=
  (if c =? 34 then Some 34 else if c =? 92 then Some 92
   else if c =? 47 then Some 47 else if c =? 98 then Some 8
   else if c =? 102 then Some 12 else if c =? 110 then Some 10
   else if c =? 114 then Some 13 else if c =? 116 then Some 9
   else None)%N.

(** The characters of a string after its opening quote. *)
Fixpoint scan_string (s acc : pystr) : option (pystr * pystr) :=
  match s with
  | [] => None
  | c :: r =>
      if (c =? 34)%N then Some (rev acc, r)
      else if (c =? 92)%N then
        match r with
        | e :: r' =>
            match unescape e with
            | Some u => scan_string r' (u :: acc)
            | None => None
            end
        | [] => None
        end
      else if (c <? 32)%N then None
      else scan_string r (c :: acc)
  end.

Fixpoint scan_digits (s : pystr) (acc : Z) : Z * pystr :=
  match s with
  | c :: r =>
      if is_digit c then scan_digits r (10 * acc + Z.of_N (c - 48))%Z
      else (acc, s)
  | [] => (acc, [])
  end.

(** An integer without sign: [0] or a digit string without leading
    zero, not followed by a fraction or an exponent. *)
Definition scan_nat (s : pystr) : option (Z * pystr) :=
  match s with
  | c :: r =>
      if negb (is_digit c) then None
      else
        let '(z, rest) :=
          if (c =? 48)%N then (0%Z, r) else scan_digits s 0%Z in
        match rest with
        | d :: _ =>
            if ((d =? 46) || (d =? 101) || (d =? 69))%N then None
            else Some (z, rest)
        | [] => Some (z, rest)
        end
  | [] => None
  end.

Fixpoint starts_with (p s : pystr) : option pystr :=
  match p, s with
  | [], _ => Some s
  | a :: p', b :: s' => if (a =? b)%N then starts_with p' s' else None
  | _ :: _, [] => None
  end.

(** [d[k] = v]: replaces in place, else appends. *)
Fixpoint dict_set (k : pystr) (v : pyvalue) (d : list (pystr * pyvalue))
  : list (pystr * pyvalue) :=
  match d with
  | [] => [(k, v)]
  | (k', v') :: r =>
      if list_eq_dec N.eq_dec k k' then (k', v) :: r
      else (k', v') :: dict_set k v r
  end.

Fixpoint scan_value (fuel : nat) (s : pystr) {struct fuel}
  : option (pyvalue * pystr) :=
  match fuel with
  | O => None
  | S fuel' =>
      match s with
      | [] => None
      | c :: r =>
          if (c =? 34)%N then
            match scan_string r [] with
            | Some (str, rest) => Some (PyStr str, rest)
            | None => None
            end
          else if (c =? 91)%N then
            match skip_ws r with
            | d :: r' =>
                if (d =? 93)%N then Some (PyList [], r')
                else scan_elems fuel' (d :: r') []
            | [] => None
            end
          else if (c =? 123)%N then
            match skip_ws r with
            | d :: r' =>
                if (d =? 125)%N then Some (PyDict [], r')
                else scan_members fuel' (d :: r') []
            | [] => None
            end
          else if (c =? 45)%N then
            match scan_nat r with
            | Some (z, rest) => Some (PyInt (- z), rest)
            | None => None
            end
          else if is_digit c then
            match scan_nat s with
            | Some (z, rest) => Some (PyInt z, rest)
            | None => None
            end
          else
            match starts_with (py "null") s with
            | Some rest => Some (PyNone, rest)
            | None =>
            match starts_with (py "true") s with
            | Some rest => Some (PyBool true, rest)
            | None =>
            match starts_with (py "false") s with
            | Some rest => Some (PyBool false, rest)
            | None => None
            end end end
      end
  end
with scan_elems (fuel : nat) (s : pystr) (acc : list pyvalue)
                {struct fuel} : option (pyvalue * pystr) :=
  match fuel with
  | O => None
  | S fuel' =>
      match scan_value fuel' s with
      | Some (v, rest) =>
          match skip_ws rest with
          | d :: r' =>
              if (d =? 44)%N then scan_elems fuel' (skip_ws r') (v :: acc)
              else if (d =? 93)%N then Some (PyList (rev (v :: acc)), r')
              else None
          | [] => None
          end
      | None => None
      end
  end
with scan_members (fuel : nat) (s : pystr) (acc : list (pystr * pyvalue))
                  {struct fuel} : option (pyvalue * pystr) :=
  match fuel with
  | O => None
  | S fuel' =>
      match s with
      | q :: r =>
          if negb (q =? 34)%N then None
          else
            match scan_string r [] with
            | Some (k, rest) =>
                match skip_ws rest with
                | colon :: rest' =>
                    if negb (colon =? 58)%N then None
                    else
                      match scan_value fuel' (skip_ws rest') with
                      | Some (v, rest2) =>
                          match skip_ws rest2 with
                          | d :: r' =>
                              if (d =? 44)%N then
                                scan_members fuel' (skip_ws r')
                                             (dict_set k v acc)
                              else if (d =? 125)%N then
                                Some (PyDict (dict_set k v acc), r')
                              else None
                          | [] => None
                          end
                      | None => None
                      end
                | [] => None
                end
            | None => None
            end
      | [] => None
      end
  end.

Definition loads (s : pystr) : pyvalue + exn :=
  match scan_value (2 * List.length s + 2) (skip_ws s) with
  | Some (v, rest) =>
      if is_empty (skip_ws rest) then inl v
      else inr (Exn JSONDecodeError (py "Extra data"))
  | None => inr (Exn JSONDecodeError (py "Expecting value"))
  end.

Definition float_repr (f : spec_float) : pystr :=
  match f with
  | S754_zero true => py "-0.0"
  | _ => py "0.0"
  end.

Definition dumps : pyvalue -> pystr := Json.dumps float_repr.

End Stub.

(** ** Mode A: [mcp_streaming_client.py] *)

Module MCPStreamingClient.

(** The arguments of one [session.post(url, json=..., headers=...,
    timeout=...)] call. *)
Record Request : Type :=
  { url : pystr;
    json : pyvalue;
    headers : list (pystr * pystr);
    timeout : Z }.

(** What the bridge reads of a [requests.Response]. *)
Record Response : Type :=
  { status_code : Z;
    reason : pystr;
    response_url : pystr;
    text : pystr }.

Inductive post_result : Type :=
| Raises (e : exn)           (* connection error, timeout, interrupt *)
| Responds (r : Response).

(** The runtime and the remote endpoint: [json.loads], [float.__repr__]
    and the outcome of the [k]-th POST of the session. *)
Record Env : Type :=
  { json_loads : pystr -> pyvalue + exn;
    float_repr : spec_float -> pystr;
    remote : nat -> Request -> post_result }.

Inductive event : Type :=
| Stdout (s : pystr)         (* text written to sys.stdout *)
| StdoutFlush
| Stderr (s : pystr)         (* text written to sys.stderr *)
| Post (r : Request)         (* session.post called *)
| SessionClose.              (* session.close called *)

(** The number of POST calls made so far. *)
Record World : Type := { posts : nat }.

(** What one step of [for line in sys.stdin] yields: a line, or an
    exception raised while the loop waits for one (an interrupt, a
    decoding error).  The end of the list is the end of the stream. *)
Inductive stdin_item : Type :=
| Line (s : pystr)
| ReadRaises (e : exn).

(** The object: [self.base_url]; [self.session] is the one session the
    [Post] and [SessionClose] events belong to. *)
Record client : Type := { base_url : pystr }.

Definition M := Eff.M event World.

(** [__init__] *)
Definition init (base_url : pystr) : client :=
  {| base_url := rstrip_chars (py "/") base_url |}.

Section Bridge.
Variable env : Env.
Local Open Scope eff_scope.

Definition json_dumps : pyvalue -> pystr := Json.dumps (float_repr env).

(** [print(s, flush=True)] and [print(s, file=sys.stderr)]. *)
Definition print_flush (s : pystr) : M unit :=
  Eff.emit (Stdout (s ++ [newline])) ;; Eff.emit StdoutFlush.
Definition print_stderr (s : pystr) : M unit :=
  Eff.emit (Stderr (s ++ [newline])).

(** [json.loads(line)] *)
Definition loads (line : pystr) : M pyvalue :=
  match json_loads env line with
  | inl v => Eff.ret v
  | inr e => Eff.raise e
  end.

(** [self.session.post(...)] *)
Definition session_post (req : Request) : M Response :=
  fun w =>
    ([Post req], {| posts := S (posts w) |},
     match remote env (posts w) req with
     | Raises e => inr e
     | Responds r => inl r
     end).

(** [response.raise_for_status()]: an [HTTPError] for a 4xx or 5xx
    status. *)
Definition http_error_msg (r : Response) : option pystr :=
  (if (400 <=? status_code r) && (status_code r <? 500) then
     Some (Json.int_repr (status_code r) ++ py " Client Error: "
           ++ reason r ++ py " for url: " ++ response_url r)
   else if (500 <=? status_code r) && (status_code r <? 600) then
     Some (Json.int_repr (status_code r) ++ py " Server Error: "
           ++ reason r ++ py " for url: " ++ response_url r)
   else None)%Z.

Definition raise_for_status (r : Response) : M unit :=
  match http_error_msg r with
  | Some m => Eff.raise (Exn HTTPError m)
  | None => Eff.ret tt
  end.

(** [response.json()]: the body decoded; a decode error is raised
    again in the class of [requests]. *)
Definition response_json (r : Response) : M pyvalue :=
  match json_loads env (text r) with
  | inl v => Eff.ret v
  | inr e =>
      Eff.raise (if is_JSONDecodeError e
                 then Exn RequestsJSONDecodeError (msg e) else e)
  end.

(** The arguments [forward_request] gives to [self.session.post]. *)
Definition post_args (self : client) (json_rpc : pyvalue) : Request :=
  {| url := base_url self ++ py "/mcp";
     json := json_rpc;
     headers := [(py "Content-Type", py "application/json")];
     timeout := 300 |}.

(** [forward_request]: [None] stands for the error. *)
Definition forward_request (self : client) (json_rpc : pyvalue)
  : M pyvalue :=
  Eff.try_except
    (response <- session_post (post_args self json_rpc) ;;
     raise_for_status response ;;
     response_json response)
    is_Exception
    (fun e => print_stderr (py "Request error: " ++ msg e) ;;
              Eff.ret PyNone).

(** The body of the [for] loop of [run]. *)
Definition handle_line (self : client) (line : pystr) : M unit :=
  let line := strip line in
  if is_empty line then Eff.ret tt        (* continue *)
  else
    Eff.try_except
      (request <- loads line ;;
       response <- forward_request self request ;;
       if truthy response then print_flush (json_dumps response)
       else Eff.ret tt)
      is_JSONDecodeError
      (fun e => print_stderr (py "JSON decode error: " ++ msg e)).

(** [for line in sys.stdin: ...] *)
Fixpoint for_stdin (self : client) (stdin : list stdin_item) : M unit :=
  match stdin with
  | [] => Eff.ret tt
  | Line line :: rest => handle_line self line ;; for_stdin self rest
  | ReadRaises e :: _ => Eff.raise e
  end.

(** [run] *)
Definition run (self : client) (stdin : list stdin_item) : M unit :=
  Eff.try_finally
    (Eff.try_except (for_stdin self stdin)
                    is_KeyboardInterrupt
                    (fun _ => Eff.ret tt))
    (Eff.emit SessionClose).

(** [main], after the command line gave [url]: the events of the
    process and its exit status. *)
Definition main (url : pystr) (stdin : list stdin_item)
  : list event * Z :=
  let client := init url in
  let out := run client stdin {| posts := 0 |} in
  (Eff.trace_of out, exit_status (Eff.result_of out)).
End Bridge.

(** *** Observations on the events of a run *)

Definition stdout_of (t : list event) : list pystr :=
  flat_map (fun ev => match ev with Stdout s => [s] | _ => [] end) t.
Definition stderr_of (t : list event) : list pystr :=
  flat_map (fun ev => match ev with Stderr s => [s] | _ => [] end) t.
Definition posts_of (t : list event) : list Request :=
  flat_map (fun ev => match ev with Post r => [r] | _ => [] end) t.
Definition closes_of (t : list event) : nat :=
  List.length
    (filter (fun ev => match ev with SessionClose => true | _ => false end)
            t).

(** *** The vocabulary of the specification

    What happens to one input line, when [k] POST calls were made before
    it. *)

Inductive line_class : Type :=
| Blank                   (* nothing but white space: skipped *)
| Malformed (e : exn)     (* json.loads raised a JSONDecodeError *)
| Failed (e : exn)        (* the request raised an Exception *)
| Dropped (v : pyvalue)   (* the request succeeded, the body is falsy *)
| Answered (v : pyvalue)  (* the request succeeded, the body is truthy *)
| Escaped (e : exn).      (* an exception no handler of the loop catches *)

Section Vocabulary.
Variable env : Env.

(** The result of the exchange for [request], the [k]-th POST: the
    decoded body, or what [post], [raise_for_status] or
    [response.json] raised. *)
Definition exchange (self : client) (k : nat) (request : pyvalue)
  : pyvalue + exn :=
  match remote env k (post_args self request) with
  | Raises e => inr e
  | Responds r =>
      match http_error_msg r with
      | Some m => inr (Exn HTTPError m)
      | None =>
          match json_loads env (text r) with
          | inl v => inl v
          | inr e => inr (if is_JSONDecodeError e
                          then Exn RequestsJSONDecodeError (msg e)
                          else e)
          end
      end
  end.

Definition classify (self : client) (k : nat) (line : pystr)
  : line_class :=
  if is_empty (strip line) then Blank
  else
    match json_loads env (strip line) with
    | inr e => if is_JSONDecodeError e then Malformed e else Escaped e
    | inl request =>
        match exchange self k request with
        | inr e => if is_Exception e then Failed e else Escaped e
        | inl v => if truthy v then Answered v else Dropped v
        end
    end.

(** The number of POST calls after [line]. *)
Definition posts_after (k : nat) (line : pystr) : nat :=
  if is_empty (strip line) then k
  else match json_loads env (strip line) with
       | inl _ => S k
       | inr _ => k
       end.

Fixpoint classes (self : client) (k : nat) (lines : list pystr)
  : list line_class :=
  match lines with
  | [] => []
  | line :: rest =>
      classify self k line :: classes self (posts_after k line) rest
  end.

(** What the line writes to standard output. *)
Definition line_stdout (c : line_class) : list pystr :=
  match c with
  | Answered v => [json_dumps env v ++ [newline]]
  | _ => []
  end.
End Vocabulary.

Definition is_blank (c : line_class) : bool :=
  match c with Blank => true | _ => false end.
Definition is_malformed (c : line_class) : bool :=
  match c with Malformed _ => true | _ => false end.
Definition is_failed (c : line_class) : bool :=
  match c with Failed _ => true | _ => false end.
Definition is_dropped (c : line_class) : bool :=
  match c with Dropped _ => true | _ => false end.
Definition is_answered (c : line_class) : bool :=
  match c with Answered _ => true | _ => false end.
Definition is_escaped (c : line_class) : bool :=
  match c with Escaped _ => true | _ => false end.

(** The body of an answered line is truthy, that of a dropped one
    falsy. *)
Definition class_wf (c : line_class) : Prop :=
  match c with
  | Answered v => truthy v = true
  | Dropped v => truthy v = false
  | _ => True
  end.

Definition count (p : line_class -> bool) (cs : list line_class) : nat :=
  List.length (filter p cs).

(** The bodies of the requests that succeeded, in the order of their
    lines. *)
Definition responses (cs : list line_class) : list pyvalue :=
  flat_map (fun c => match c with
                     | Answered v | Dropped v => [v]
                     | _ => []
                     end) cs.

End MCPStreamingClient.

(** ** Mode B: [python_tools/remote_claude_mcp_configs.py] *)

Module MCPNetworkBridge.

Definition bytes := list Byte.byte.

Variant socket_obj : Type := Sock.

(** The operating system and the remote peer: the outcomes of
    [socket.socket(...)], of [connect((host, port))], of the [k]-th
    [sendall] and of [Thread.start] ([None] is success); and whether,
    when the main thread ends, the daemon thread is inside
    [sys.stdin.buffer.readline()], standard input being open and idle
    (what standard input delivers later is never read). *)
Record Env : Type :=
  { socket_new : option exn;
    socket_connect : pystr -> Z -> option exn;
    socket_sendall : nat -> bytes -> option exn;
    thread_start : option exn;
    thread_reading_at_exit : bool }.

(** The return code of a process that the interpreter aborts at shutdown
    (SIGABRT, as [subprocess] reports it).  CPython aborts when it shuts
    down while a daemon thread is inside a read of standard input: it
    cannot take the lock of the buffered reader. *)
Definition aborted : Z := -6.

(** What one [recv] yields: bytes of the peer, or an exception raised
    while the main thread waits in it (a read error, an interrupt).  The
    end of the list, like an empty chunk, is the closed connection. *)
Inductive recv_item : Type :=
| Data (d : bytes)
| RecvRaises (e : exn).

Inductive event : Type :=
| SocketNew                            (* socket.socket(...) returned *)
| Connect (host : pystr) (port : Z)    (* sock.connect called *)
| ThreadStart                          (* stdin_thread.start() called *)
| Sendall (d : bytes)                  (* sock.sendall called *)
| Recv (bufsize : Z)                   (* sock.recv called *)
| StdoutWrite (d : bytes)              (* sys.stdout.buffer.write *)
| StdoutFlush                          (* sys.stdout.buffer.flush *)
| Stderr (s : pystr)
| SocketClose.                         (* sock.close called *)

(** [self.socket] and the number of [sendall] calls made so far. *)
Record World : Type :=
  { socket : option socket_obj;
    sends : nat }.

Record bridge : Type := { host : pystr; port : Z }.

Definition M := Eff.M event World.

(** [__init__] leaves [self.socket] at [None]. *)
Definition init (host : pystr) (port : Z) : bridge * World :=
  ({| host := host; port := port |}, {| socket := None; sends := 0 |}).

Section Bridge.
Variable env : Env.
Local Open Scope eff_scope.

Definition print_stderr (s : pystr) : M unit :=
  Eff.emit (Stderr (s ++ [newline])).

Definition of_outcome (o : option exn) : M unit :=
  match o with
  | None => Eff.ret tt
  | Some e => Eff.raise e
  end.

(** [self.socket = socket.socket(AF_INET, SOCK_STREAM)] *)
Definition new_socket : M unit :=
  of_outcome (socket_new env) ;;
  Eff.emit SocketNew ;;
  w <- Eff.get ;;
  Eff.put {| socket := Some Sock; sends := sends w |}.

Definition sock_connect (self : bridge) : M unit :=
  Eff.emit (Connect (host self) (port self)) ;;
  of_outcome (socket_connect env (host self) (port self)).

Definition sock_sendall (d : bytes) : M unit :=
  w <- Eff.get ;;
  Eff.emit (Sendall d) ;;
  Eff.put {| socket := socket w; sends := S (sends w) |} ;;
  of_outcome (socket_sendall env (sends w) d).

(** [connect] *)
Definition connect (self : bridge) : M bool :=
  Eff.try_except
    (new_socket ;; sock_connect self ;; Eff.ret true)
    is_Exception
    (fun e => print_stderr (py "Connection failed: " ++ msg e) ;;
              Eff.ret false).

(** The [while True] loop of [forward_stdio_to_socket]; [stdin] lists
    what the successive [readline] calls return before the end of the
    stream. *)
Fixpoint stdio_to_socket_loop (stdin : list bytes) : M unit :=
  match stdin with
  | [] => Eff.ret tt                          (* b'': break *)
  | [] :: _ => Eff.ret tt                     (* b'': break *)
  | line :: rest =>
      w <- Eff.get ;;
      match socket w with
      | Some _ => sock_sendall line ;; stdio_to_socket_loop rest
      | None => print_stderr (py "Socket is not connected.")
      end
  end.

(** [forward_stdio_to_socket] *)
Definition forward_stdio_to_socket (stdin : list bytes) : M unit :=
  Eff.try_except
    (stdio_to_socket_loop stdin)
    is_Exception
    (fun e => print_stderr (py "Error forwarding to socket: " ++ msg e)).

(** The [while True] loop of [forward_socket_to_stdio]. *)
Fixpoint socket_to_stdio_loop (recvs : list recv_item) : M unit :=
  w <- Eff.get ;;
  match socket w with
  | None => print_stderr (py "Socket is not connected.")
  | Some _ =>
      Eff.emit (Recv 4096) ;;
      match recvs with
      | [] => Eff.ret tt                      (* b'': break *)
      | RecvRaises e :: _ => Eff.raise e
      | Data [] :: _ => Eff.ret tt            (* b'': break *)
      | Data data :: rest =>
          Eff.emit (StdoutWrite data) ;;
          Eff.emit StdoutFlush ;;
          socket_to_stdio_loop rest
      end
  end.

(** [forward_socket_to_stdio] *)
Definition forward_socket_to_stdio (recvs : list recv_item) : M unit :=
  Eff.try_except
    (socket_to_stdio_loop recvs)
    is_Exception
    (fun e => print_stderr (py "Error forwarding to stdio: " ++ msg e)).

(** [sys.exit(code)] *)
Definition sys_exit (code : Z) : M unit :=
  Eff.raise (Exn (SystemExit code) (Json.int_repr code)).

(** [run], on the main thread.  [ThreadStart] marks the point from
    which the daemon thread runs [forward_stdio_to_socket]
    concurrently. *)
Definition run (self : bridge) (recvs : list recv_item) : M unit :=
  connected <- connect self ;;
  (if negb connected then sys_exit 1 else Eff.ret tt) ;;
  Eff.try_finally
    (Eff.try_except
       (Eff.emit ThreadStart ;;
        of_outcome (thread_start env) ;;
        forward_socket_to_stdio recvs)
       is_KeyboardInterrupt
       (fun _ => Eff.ret tt))
    (w <- Eff.get ;;
     match socket w with
     | Some _ => Eff.emit SocketClose
     | None => Eff.ret tt
     end).

(** The process: the events of the main thread, the events the daemon
    thread emits when it runs to its end (it runs concurrently from
    [ThreadStart] on and is abandoned when the main thread exits, so
    what it really emits is a prefix of them), and the exit status: that
    of the result of the main thread, unless the interpreter shuts down
    while the started daemon thread is reading standard input, which
    aborts the process. *)
Record process : Type :=
  { main_events : list event;
    thread_events : list event;
    status : Z }.

Definition thread_started (t : list event) : bool :=
  existsb (fun ev => match ev with ThreadStart => true | _ => false end)
          t
  && match thread_start env with None => true | Some _ => false end.

(** [main], after the command line gave [host] and [port]. *)
Definition main (host : pystr) (port : Z) (stdin : list bytes)
           (recvs : list recv_item) : process :=
  let '(self, w0) := init host port in
  let out := run self recvs w0 in
  {| main_events := Eff.trace_of out;
     thread_events :=
       if thread_started (Eff.trace_of out)
       then Eff.trace_of
              (forward_stdio_to_socket stdin
                 {| socket := Some Sock; sends := 0 |})
       else [];
     status :=
       if thread_started (Eff.trace_of out) && thread_reading_at_exit env
       then aborted
       else exit_status (Eff.result_of out) |}.
End Bridge.

(** *** Observations on the events of a run *)

Definition sent_of (t : list event) : list bytes :=
  flat_map (fun ev => match ev with Sendall d => [d] | _ => [] end) t.
Definition written_of (t : list event) : list bytes :=
  flat_map (fun ev => match ev with StdoutWrite d => [d] | _ => [] end) t.
Definition stderr_of (t : list event) : list pystr :=
  flat_map (fun ev => match ev with Stderr s => [s] | _ => [] end) t.
Definition closes_of (t : list event) : nat :=
  List.length
    (filter (fun ev => match ev with SocketClose => true | _ => false end)
            t).


(** *** The vocabulary of the specification *)

(** The lines of standard input before its end. *)
Fixpoint lines_before_eof (stdin : list bytes) : list bytes :=
  match stdin with
  | [] | [] :: _ => []
  | line :: rest => line :: lines_before_eof rest
  end.

(** The lines the loop gives to [sendall], the first of them being the
    [k]-th write of the socket: those before the end of the input, up to
    and including the first whose write fails; and the exception of that
    write, if any. *)
Fixpoint attempted (env : Env) (k : nat) (stdin : list bytes)
  : list bytes :=
  match stdin with
  | [] | [] :: _ => []
  | line :: rest =>
      line :: match socket_sendall env k line with
              | None => attempted env (S k) rest
              | Some _ => []
              end
  end.

Fixpoint send_error (env : Env) (k : nat) (stdin : list bytes)
  : option exn :=
  match stdin with
  | [] | [] :: _ => None
  | line :: rest =>
      match socket_sendall env k line with
      | None => send_error env (S k) rest
      | Some e => Some e
      end
  end.

(** The chunks the socket yields before it returns zero bytes or a read
    raises, and the exception of that read, if any. *)
Fixpoint chunks_before_end (recvs : list recv_item) : list bytes :=
  match recvs with
  | Data (b :: d) :: rest => (b :: d) :: chunks_before_end rest
  | _ => []
  end.

(** The events of one relayed chunk. *)
Definition relay (d : bytes) : list event :=
  [Recv 4096; StdoutWrite d; StdoutFlush].

Fixpoint recv_error (recvs : list recv_item) : option exn :=
  match recvs with
  | Data (_ :: _) :: rest => recv_error rest
  | RecvRaises e :: _ => Some e
  | _ => None
  end.

(** The merges of the events of the main thread with those of the daemon
    thread. *)
Inductive interleave : list event -> list event -> list event -> Prop :=
| interleave_nil : interleave [] [] []
| interleave_main (ev : event) (l r m : list event) :
    interleave l r m -> interleave (ev :: l) r (ev :: m)
| interleave_thread (ev : event) (l r m : list event) :
    interleave l r m -> interleave l (ev :: r) (ev :: m).

(** The event sequences the process can show: the events of the main
    thread, with, from [ThreadStart] on, the events the daemon thread
    emitted before the process exited (a prefix [ran] of its events)
    merged in. *)
Definition observable (p : process) (t : list event) : Prop :=
  (thread_events p = [] /\ t = main_events p)
  \/ exists before after ran rest m : list event,
       main_events p = before ++ ThreadStart :: after
       /\ thread_events p = ran ++ rest
       /\ interleave after ran m
       /\ t = before ++ ThreadStart :: m.



End MCPNetworkBridge.

(** ** Scenarios

    Concrete environments and inputs, on which the definitions are
    evaluated. *)

Module Scenarios.
Import MCPStreamingClient.

Definition gateway : pystr := py "http://gateway:8080".

Definition ok_response (body : pystr) : Response :=
  {| status_code := 200; reason := py "OK";
     response_url := gateway ++ py "/mcp"; text := body |}.

(** A stub endpoint that answers every POST with status 200 and
    [body]. *)
Definition answering (body : pystr) : nat -> Request -> post_result :=
  fun _ _ => Responds (ok_response body).

(** A stub endpoint whose [k]-th exchange fails with a connection
    error. *)
Definition failing_at (k : nat) (body : pystr)
  : nat -> Request -> post_result :=
  fun n _ => if Nat.eqb n k
             then Raises (Exn ConnectionError (py "connection reset"))
             else Responds (ok_response body).

Definition stub_env (remote : nat -> Request -> post_result) : Env :=
  {| json_loads := Stub.loads;
     float_repr := Stub.float_repr;
     remote := remote |}.

(** The search request and the echoed result of the specification. *)
Definition search_line : pystr :=
  pyq "{'jsonrpc':'2.0','id':1,'method':'search','params':{'query':'Docker'}}"
  ++ [newline].
Definition search_request : pyvalue :=
  PyDict [(py "jsonrpc", PyStr (py "2.0")); (py "id", PyInt 1);
          (py "method", PyStr (py "search"));
          (py "params", PyDict [(py "query", PyStr (py "Docker"))])].
Definition echo_body : pystr :=
  pyq "{'jsonrpc':'2.0','id':1,'result':{'content':[{'text':'ok'}]}}".
Definition echo_value : pyvalue :=
  PyDict [(py "jsonrpc", PyStr (py "2.0")); (py "id", PyInt 1);
          (py "result",
           PyDict [(py "content",
                    PyList [PyDict [(py "text", PyStr (py "ok"))]])])].
Definition echo_env : Env := stub_env (answering echo_body).

(** An endpoint that answers with the empty JSON object. *)
Definition empty_object_env : Env := stub_env (answering (py "{}")).


(** An endpoint whose second exchange fails. *)
Definition flaky_env : Env := stub_env (failing_at 1 echo_body).


(** Requests that differ in their [id], the results that answer them,
    and a stub endpoint whose [k]-th answer has the [k]-th of [bodies]
    as its body. *)
Definition ping_line (id : pystr) : pystr :=
  pyq "{'jsonrpc':'2.0','id':" ++ id ++ pyq ",'method':'ping'}"
  ++ [newline].
Definition result_body (id : pystr) : pystr :=
  pyq "{'jsonrpc':'2.0','id':" ++ id ++ pyq ",'result':{'ok':true}}".
Definition result_value (id : Z) : pyvalue :=
  PyDict [(py "jsonrpc", PyStr (py "2.0")); (py "id", PyInt id);
          (py "result", PyDict [(py "ok", PyBool true)])].
Definition answers (bodies : list pystr) : nat -> Request -> post_result :=
  fun k _ => Responds (ok_response (nth k bodies (py "null"))).

(** An endpoint that answers three requests with the results 1, 2 and
    3, and one that answers the second with the empty JSON object. *)
Definition numbered_env : Env :=
  stub_env (answers [result_body (py "1"); result_body (py "2");
                     result_body (py "3")]).
Definition sparse_env : Env :=
  stub_env (answers [result_body (py "1"); py "{}";
                     result_body (py "3")]).

Definition blank_line : pystr := py "  " ++ [newline].
Definition malformed_line : pystr := py "{bad" ++ [newline].

(** Mode B: a peer that accepts the connection and every write, one
    whose second write fails, and one that refuses the connection. *)
Definition peer_env : MCPNetworkBridge.Env :=
  {| MCPNetworkBridge.socket_new := None;
     MCPNetworkBridge.socket_connect := fun _ _ => None;
     MCPNetworkBridge.socket_sendall := fun _ _ => None;
     MCPNetworkBridge.thread_start := None;
     MCPNetworkBridge.thread_reading_at_exit := false |}.

Definition broken_pipe_env : MCPNetworkBridge.Env :=
  {| MCPNetworkBridge.socket_new := None;
     MCPNetworkBridge.socket_connect := fun _ _ => None;
     MCPNetworkBridge.socket_sendall :=
       fun k _ => if Nat.eqb k 1
                  then Some (Exn OSError (py "[Errno 32] Broken pipe"))
                  else None;
     MCPNetworkBridge.thread_start := None;
     MCPNetworkBridge.thread_reading_at_exit := false |}.

Definition refused : exn :=
  Exn OSError (py "[Errno 111] Connection refused").

Definition refusing_env : MCPNetworkBridge.Env :=
  {| MCPNetworkBridge.socket_new := None;
     MCPNetworkBridge.socket_connect := fun _ _ => Some refused;
     MCPNetworkBridge.socket_sendall := fun _ _ => None;
     MCPNetworkBridge.thread_start := None;
     MCPNetworkBridge.thread_reading_at_exit := false |}.

Definition gateway_host : pystr := py "192.168.1.231".

(** [b"hello\n"] and two more lines. *)
Definition hello : MCPNetworkBridge.bytes :=
  [Byte.x68; Byte.x65; Byte.x6c; Byte.x6c; Byte.x6f; Byte.x0a].
Definition ping : MCPNetworkBridge.bytes :=
  [Byte.x70; Byte.x69; Byte.x6e; Byte.x67; Byte.x0a].
Definition pong : MCPNetworkBridge.bytes :=
  [Byte.x70; Byte.x6f; Byte.x6e; Byte.x67; Byte.x0a].

End Scenarios.

(** ** Further observations

    Vocabulary for the properties of the bridges beyond those of the
    specification. *)

Module StreamingObs.
Import MCPStreamingClient.

(** Every write to standard output is followed at once by a flush, and
    nothing else is flushed. *)
Fixpoint well_flushed (t : list event) : bool :=
  match t with
  | [] => true
  | Stdout _ :: rest =>
      match rest with
      | StdoutFlush :: rest' => well_flushed rest'
      | _ => false
      end
  | StdoutFlush :: _ => false
  | _ :: rest => well_flushed rest
  end.

(** The request of a line: what a non-blank line decodes to. *)
Definition parsed (env : Env) (line : pystr) : list pyvalue :=
  if is_empty (strip line) then []
  else match json_loads env (strip line) with
       | inl request => [request]
       | inr _ => []
       end.

Definition requests_of (env : Env) (lines : list pystr) : list pyvalue :=
  flat_map (parsed env) lines.

(** What a line writes to the error channel. *)
Definition line_stderr (c : line_class) : list pystr :=
  match c with
  | Malformed e => [py "JSON decode error: " ++ msg e ++ [newline]]
  | Failed e => [py "Request error: " ++ msg e ++ [newline]]
  | _ => []
  end.

(** [s] does not end with the character [c]. *)
Definition not_ending_with (c : N) (s : pystr) : Prop :=
  forall s' : pystr, s <> s' ++ [c].

End StreamingObs.

Module MoreScenarios.
Import MCPStreamingClient Scenarios.

(** A line of 2000 opening brackets, and a decoder that gives up with a
    [RecursionError] on a text of more than 1000 characters: it stands
    for the decoder of CPython on input nested deeper than the recursion
    limit. *)
Definition deep_line : pystr := repeat 91%N 2000 ++ [newline].

Definition recursion_error : exn :=
  Exn RecursionError
      (py "maximum recursion depth exceeded while decoding a JSON array").

Definition recursion_env : Env :=
  {| json_loads :=
       fun s => if Nat.ltb 1000 (List.length s) then inr recursion_error
                else Stub.loads s;
     float_repr := Stub.float_repr;
     remote := answering echo_body |}.

(** An endpoint that answers with status 500 and a JSON body. *)
Definition server_error_env : Env :=
  stub_env (fun _ _ =>
              Responds {| status_code := 500;
                          reason := py "Internal Server Error";
                          response_url := gateway ++ py "/mcp";
                          text := echo_body |}).

(** Mode B: no socket can be created. *)
Definition no_socket_env : MCPNetworkBridge.Env :=
  {| MCPNetworkBridge.socket_new :=
       Some (Exn OSError (py "[Errno 24] Too many open files"));
     MCPNetworkBridge.socket_connect := fun _ _ => None;
     MCPNetworkBridge.socket_sendall := fun _ _ => None;
     MCPNetworkBridge.thread_start := None;
     MCPNetworkBridge.thread_reading_at_exit := false |}.



End MoreScenarios.

(* ================================================================== *)
(** * Part II: properties                                              *)
(* ================================================================== *)

Unset Implicit Arguments.

Ltac eff_unfold :=
  unfold Eff.bind, Eff.ret, Eff.emit, Eff.raise, Eff.get, Eff.put,
    Eff.try_except, Eff.try_finally, Eff.trace_of, Eff.world_of,
    Eff.result_of in *.

(** ** Strings *)

Module PyFacts.

Lemma dropwhile_all (p : N -> bool) (s : pystr) :
  forallb p s = true -> dropwhile p s = [].
Proof.
  induction s as [|c s IH]; simpl; [reflexivity|].
  intros H. apply andb_true_iff in H as [Hc Hs]. rewrite Hc. auto.
Qed.

Lemma dropwhile_nil_all (p : N -> bool) (s : pystr) :
  dropwhile p s = [] -> forallb p s = true.
Proof.
  induction s as [|c s IH]; simpl; [reflexivity|].
  destruct (p c); [auto | discriminate].
Qed.

Lemma dropwhile_app_all (p : N -> bool) (s t : pystr) :
  forallb p s = true -> dropwhile p (s ++ t) = dropwhile p t.
Proof.
  induction s as [|c s IH]; simpl; [reflexivity|].
  intros H. apply andb_true_iff in H as [Hc Hs]. rewrite Hc. auto.
Qed.

Lemma dropwhile_idem (p : N -> bool) (s : pystr) :
  dropwhile p (dropwhile p s) = dropwhile p s.
Proof.
  induction s as [|c s IH]; simpl; [reflexivity|].
  destruct (p c) eqn:Hc; [assumption|]. simpl. now rewrite Hc.
Qed.

(** A line is skipped exactly when it consists of white space. *)
Lemma strip_empty_iff (s : pystr) :
  is_empty (strip s) = true <-> forallb is_space s = true.
Proof.
  unfold strip, rstrip, lstrip. split.
  - intros H.
    destruct (rev (dropwhile is_space (rev (dropwhile is_space s))))
      as [|c r] eqn:E; [|discriminate].
    apply (f_equal (@rev N)) in E. rewrite rev_involutive in E. simpl in E.
    apply dropwhile_nil_all in E.
    rewrite forallb_forall in E.
    assert (Hd : forallb is_space (dropwhile is_space s) = true).
    { apply forallb_forall. intros x Hx. apply E. now apply in_rev in Hx. }
    clear E H. induction s as [|a s IH]; simpl in *; [reflexivity|].
    destruct (is_space a) eqn:Ha; simpl; [auto|].
    simpl in Hd. rewrite Ha in Hd. discriminate.
  - intros H. rewrite (dropwhile_all _ _ H). reflexivity.
Qed.

Lemma rstrip_chars_app_all (chars s t : pystr) :
  forallb (fun c => mem c chars) t = true ->
  rstrip_chars chars (s ++ t) = rstrip_chars chars s.
Proof.
  intros H. unfold rstrip_chars. rewrite rev_app_distr.
  rewrite dropwhile_app_all; [reflexivity|].
  apply forallb_forall. intros x Hx. apply in_rev in Hx.
  rewrite forallb_forall in H. now apply H.
Qed.

Lemma rstrip_chars_idem (chars s : pystr) :
  rstrip_chars chars (rstrip_chars chars s) = rstrip_chars chars s.
Proof.
  unfold rstrip_chars. rewrite rev_involutive. now rewrite dropwhile_idem.
Qed.

Lemma repeat_all (c : N) (chars : pystr) (k : nat) :
  mem c chars = true ->
  forallb (fun x => mem x chars) (repeat c k) = true.
Proof. intros H. induction k; simpl; [reflexivity|]. now rewrite H. Qed.

(** Classes of exceptions. *)
Lemma JSONDecodeError_is_Exception (e : exn) :
  is_JSONDecodeError e = true -> is_Exception e = true.
Proof. unfold is_JSONDecodeError, is_Exception. destruct (cls e); auto. Qed.

Lemma not_Exception_not_JSONDecodeError (e : exn) :
  is_Exception e = false -> is_JSONDecodeError e = false.
Proof. unfold is_JSONDecodeError, is_Exception. destruct (cls e); auto. Qed.

Lemma dropwhile_split (p : N -> bool) (s : pystr) :
  exists pre : pystr,
    s = pre ++ dropwhile p s
    /\ forallb p pre = true
    /\ match dropwhile p s with
       | [] => True
       | c :: _ => p c = false
       end.
Proof.
  induction s as [|c s (pre & H1 & H2 & H3)].
  - now exists [].
  - cbn [dropwhile]. destruct (p c) eqn:Hc.
    + exists (c :: pre). cbn [app forallb]. rewrite Hc, H2.
      split; [now rewrite <- H1|]. now split.
    + exists []. repeat split. exact Hc.
Qed.

Lemma all_slashes (pre : pystr) :
  forallb (fun c => mem c (py "/")) pre = true ->
  pre = repeat 47%N (List.length pre).
Proof.
  induction pre as [|c pre IH]; [reflexivity|]. cbn [forallb].
  intros H. apply andb_true_iff in H as [Hc H].
  cbn [List.length repeat]. rewrite <- (IH H). f_equal.
  unfold mem in Hc. change (py "/") with [47%N] in Hc.
  cbn [existsb] in Hc. rewrite orb_false_r in Hc.
  now apply N.eqb_eq in Hc.
Qed.

Lemma rev_repeat (c : N) (k : nat) : rev (repeat c k) = repeat c k.
Proof.
  induction k as [|k IH]; [reflexivity|]. cbn [repeat rev]. rewrite IH.
  clear IH. induction k as [|k IH]; [reflexivity|].
  cbn [repeat app]. now rewrite IH.
Qed.

(** [u.rstrip('/')] is [u] without its trailing slashes: [u] is the
    result followed by slashes only, and the result ends with none. *)
Lemma rstrip_slashes_split (u : pystr) :
  exists j : nat,
    u = rstrip_chars (py "/") u ++ repeat 47%N j
    /\ forall s' : pystr, rstrip_chars (py "/") u <> s' ++ [47%N].
Proof.
  unfold rstrip_chars.
  destruct (dropwhile_split (fun c => mem c (py "/")) (rev u))
    as (pre & H1 & H2 & H3).
  exists (List.length pre). split.
  - rewrite <- (rev_involutive u) at 1. rewrite H1 at 1.
    rewrite rev_app_distr. f_equal.
    rewrite (all_slashes pre H2) at 1. apply rev_repeat.
  - intros s' E.
    destruct (dropwhile (fun c => mem c (py "/")) (rev u)) as [|c d];
      [now destruct s'|].
    apply (f_equal (@rev N)) in E.
    rewrite rev_involutive, rev_app_distr in E. cbn in E.
    injection E as -> _. discriminate.
Qed.

(** The decomposition is unique. *)
Lemma slashes_split_unique (b1 b2 : pystr) (j1 j2 : nat) :
  b1 ++ repeat 47%N j1 = b2 ++ repeat 47%N j2 ->
  (forall s' : pystr, b1 <> s' ++ [47%N]) ->
  (forall s' : pystr, b2 <> s' ++ [47%N]) ->
  b1 = b2.
Proof.
  intros E H1 H2.
  apply (f_equal (@rev N)) in E.
  rewrite !rev_app_distr, !rev_repeat in E.
  assert (Hrev : forall b : pystr,
             (forall s' : pystr, b <> s' ++ [47%N]) ->
             match rev b with [] => True | c :: _ => c <> 47%N end).
  { intros b Hb. destruct (rev b) as [|c d] eqn:Er; [exact I|].
    intros ->. apply (Hb (rev d)).
    rewrite <- (rev_involutive b), Er. reflexivity. }
  apply Hrev in H1. apply Hrev in H2.
  rewrite <- (rev_involutive b1), <- (rev_involutive b2). f_equal.
  revert j2 E. induction j1 as [|j1 IH]; intros j2 E.
  - cbn [repeat app] in E. destruct j2 as [|j2]; [exact E|].
    cbn [repeat app] in E. rewrite E in H1. now destruct H1.
  - destruct j2 as [|j2].
    + cbn [repeat app] in E. rewrite <- E in H2. now destruct H2.
    + cbn [repeat app] in E. injection E as E. exact (IH j2 E).
Qed.

End PyFacts.

(** ** [json.dumps] *)

Module JsonFacts.
Import Json.

Lemma printable_not_newline (s : pystr) :
  forallb printable s = true -> ~ In newline s.
Proof.
  intros H Hin. rewrite forallb_forall in H. apply H in Hin. discriminate.
Qed.

Lemma forallb_app_true (p : N -> bool) (s t : pystr) :
  forallb p s = true -> forallb p t = true -> forallb p (s ++ t) = true.
Proof. intros Hs Ht. rewrite forallb_app, Hs, Ht. reflexivity. Qed.

Lemma hex_digit_printable (d : N) :
  (d < 16)%N -> printable (hex_digit d) = true.
Proof.
  intros H. unfold hex_digit, printable.
  destruct (d <? 10)%N eqn:E;
    [apply N.ltb_lt in E | apply N.ltb_ge in E];
    apply andb_true_iff; split; apply N.leb_le; lia.
Qed.

Lemma u_escape_printable (n : N) : forallb printable (u_escape n) = true.
Proof.
  unfold u_escape, hex4. cbn [forallb].
  rewrite !hex_digit_printable by (apply N.mod_lt; discriminate).
  reflexivity.
Qed.

Lemma escape_char_printable (c : N) :
  forallb printable (escape_char c) = true.
Proof.
  unfold escape_char.
  repeat match goal with
         | |- context [if (c =? ?k)%N then _ else _] =>
             destruct (c =? k)%N; [reflexivity|]
         end.
  destruct ((32 <=? c) && (c <=? 126))%N eqn:E.
  - cbn [forallb]. unfold printable. now rewrite E.
  - destruct (c <? 65536)%N.
    + apply u_escape_printable.
    + apply forallb_app_true; apply u_escape_printable.
Qed.

Lemma encode_printable (s : pystr) :
  forallb printable (encode_basestring_ascii s) = true.
Proof.
  unfold encode_basestring_ascii. cbn [forallb].
  apply forallb_app_true; [|reflexivity].
  induction s as [|c s IH]; [reflexivity|]. cbn [flat_map].
  apply forallb_app_true; [apply escape_char_printable | exact IH].
Qed.

Lemma uint_printable (d : Decimal.uint) :
  forallb printable (py (NilEmpty.string_of_uint d)) = true.
Proof. induction d; cbn; auto. Qed.

Lemma int_repr_printable (z : Z) : forallb printable (int_repr z) = true.
Proof.
  unfold int_repr, NilZero.string_of_int, NilZero.string_of_uint.
  destruct (Z.to_int z) as [d|d]; destruct d;
    try reflexivity; try apply uint_printable;
    change (forallb printable
              (45%N :: py (NilEmpty.string_of_uint _)) = true);
    cbn [forallb]; try apply uint_printable.
Qed.

Lemma join_printable (sep : pystr) (parts : list pystr) :
  forallb printable sep = true ->
  Forall (fun p => forallb printable p = true) parts ->
  forallb printable (join sep parts) = true.
Proof.
  intros Hsep. induction 1 as [|p parts Hp Hps IH]; [reflexivity|].
  cbn [join]. destruct parts as [|q parts]; [exact Hp|].
  apply forallb_app_true; [exact Hp|].
  apply forallb_app_true; [exact Hsep | exact IH].
Qed.

Section Printable.
Variable float_repr : spec_float -> pystr.
Hypothesis float_repr_printable :
  forall f : spec_float, forallb printable (float_repr f) = true.

Lemma floatstr_printable (f : spec_float) :
  forallb printable (floatstr float_repr f) = true.
Proof.
  destruct f as [s|[|]| |s m e]; cbn [floatstr];
    try apply float_repr_printable; reflexivity.
Qed.

(** The output of [json.dumps] is printable ASCII. *)
Lemma dumps_printable :
  forall v : pyvalue, forallb printable (dumps float_repr v) = true.
Proof.
  fix IH 1. intros v. destruct v as [|[|]|z|f|s|items|items]; cbn [dumps].
  - reflexivity.
  - reflexivity.
  - reflexivity.
  - apply int_repr_printable.
  - apply floatstr_printable.
  - apply encode_printable.
  - apply forallb_app_true; [reflexivity|].
    apply forallb_app_true; [|reflexivity].
    apply join_printable; [reflexivity|].
    induction items as [|x items IHitems]; constructor;
      [apply IH | exact IHitems].
  - apply forallb_app_true; [reflexivity|].
    apply forallb_app_true; [|reflexivity].
    apply join_printable; [reflexivity|].
    induction items as [|[k x] items IHitems]; constructor;
      [|exact IHitems].
    cbn [fst snd]. apply forallb_app_true; [apply encode_printable|].
    apply forallb_app_true; [reflexivity | apply IH].
Qed.

(** What [print] writes for a serialized value is one line. *)
Lemma dumps_one_line (v : pyvalue) :
  one_line (dumps float_repr v ++ [newline]).
Proof.
  exists (dumps float_repr v). split; [reflexivity|].
  apply printable_not_newline, dumps_printable.
Qed.
End Printable.
End JsonFacts.

(** ** Mode A *)

Module StreamingFacts.
Import MCPStreamingClient PyFacts.

Section Lines.
Variable env : Env.
Variable self : client.

Local Abbreviation dumps := (json_dumps env).

(** *** One iteration of the loop *)

Lemma handle_line_blank (line : pystr) (w : World) :
  is_empty (strip line) = true ->
  handle_line env self line w = ([], w, inl tt).
Proof. intros H. unfold handle_line. now rewrite H. Qed.

Lemma handle_line_malformed (line : pystr) (e : exn) (w : World) :
  is_empty (strip line) = false ->
  json_loads env (strip line) = inr e ->
  is_JSONDecodeError e = true ->
  handle_line env self line w
  = ([Stderr (py "JSON decode error: " ++ msg e ++ [newline])], w, inl tt).
Proof.
  intros Hb Hl He. unfold handle_line, loads. rewrite Hb.
  eff_unfold. rewrite Hl. simpl. rewrite He. simpl.
  now rewrite <- ?app_assoc.
Qed.

Lemma handle_line_loads_raises (line : pystr) (e : exn) (w : World) :
  is_empty (strip line) = false ->
  json_loads env (strip line) = inr e ->
  is_JSONDecodeError e = false ->
  handle_line env self line w = ([], w, inr e).
Proof.
  intros Hb Hl He. unfold handle_line, loads. rewrite Hb.
  eff_unfold. rewrite Hl. simpl. now rewrite He.
Qed.

(** [forward_request] in terms of the exchange. *)
Lemma forward_request_spec (request : pyvalue) (k : nat) :
  forward_request env self request {| posts := k |}
  = match exchange env self k request with
    | inl v => ([Post (post_args self request)], {| posts := S k |}, inl v)
    | inr e =>
        if is_Exception e
        then ([Post (post_args self request);
               Stderr (py "Request error: " ++ msg e ++ [newline])],
              {| posts := S k |}, inl PyNone)
        else ([Post (post_args self request)], {| posts := S k |}, inr e)
    end.
Proof.
  unfold forward_request, exchange, session_post, raise_for_status,
    response_json, print_stderr.
  eff_unfold. simpl.
  destruct (remote env k (post_args self request)) as [e|r]; simpl.
  - destruct (is_Exception e); simpl; [now rewrite <- ?app_assoc | reflexivity].
  - destruct (http_error_msg r) as [m|]; simpl.
    + now rewrite <- ?app_assoc.
    + destruct (json_loads env (text r)) as [v|e]; simpl; [reflexivity|].
      destruct (is_Exception (if is_JSONDecodeError e then _ else e));
        simpl; [now rewrite <- ?app_assoc | reflexivity].
Qed.

Lemma handle_line_request (line : pystr) (request : pyvalue) (k : nat) :
  is_empty (strip line) = false ->
  json_loads env (strip line) = inl request ->
  handle_line env self line {| posts := k |}
  = match exchange env self k request with
    | inl v =>
        (Post (post_args self request)
           :: (if truthy v
               then [Stdout (dumps v ++ [newline]); StdoutFlush]
               else []),
         {| posts := S k |}, inl tt)
    | inr e =>
        if is_Exception e
        then ([Post (post_args self request);
               Stderr (py "Request error: " ++ msg e ++ [newline])],
              {| posts := S k |}, inl tt)
        else ([Post (post_args self request)], {| posts := S k |}, inr e)
    end.
Proof.
  intros Hb Hl. unfold handle_line, loads. rewrite Hb.
  unfold Eff.try_except at 1. unfold Eff.bind at 1. rewrite Hl.
  unfold Eff.ret at 1. unfold Eff.bind at 1.
  rewrite forward_request_spec.
  destruct (exchange env self k request) as [v|e].
  - destruct (truthy v); reflexivity.
  - destruct (is_Exception e) eqn:He; simpl; [reflexivity|].
    now rewrite (not_Exception_not_JSONDecodeError _ He).
Qed.

(** *** The loop *)

Lemma for_stdin_line (line : pystr) (rest : list stdin_item) (w : World) :
  for_stdin env self (Line line :: rest) w
  = let out := handle_line env self line w in
    match Eff.result_of out with
    | inl _ =>
        let out' := for_stdin env self rest (Eff.world_of out) in
        (Eff.trace_of out ++ Eff.trace_of out', Eff.world_of out',
         Eff.result_of out')
    | inr e => (Eff.trace_of out, Eff.world_of out, inr e)
    end.
Proof.
  simpl. eff_unfold.
  destruct (handle_line env self line w) as [[t w1] [[]|e]]; simpl;
    [|reflexivity].
  now destruct (for_stdin env self rest w1) as [[t2 w2] r2].
Qed.

(** A line whose iteration returns leaves the loop running. *)
Lemma for_stdin_returns (line : pystr) (rest : list stdin_item)
      (w w' : World) (t : list event) :
  handle_line env self line w = (t, w', inl tt) ->
  for_stdin env self (Line line :: rest) w
  = let out := for_stdin env self rest w' in
    (t ++ Eff.trace_of out, Eff.world_of out, Eff.result_of out).
Proof. intros H. rewrite for_stdin_line, H. reflexivity. Qed.

(** [run] closes the session after the loop, whatever ended it, and
    swallows the interrupt. *)
Lemma run_spec (stdin : list stdin_item) (w : World) :
  run env self stdin w
  = let out := for_stdin env self stdin w in
    (Eff.trace_of out ++ [SessionClose], Eff.world_of out,
     match Eff.result_of out with
     | inl _ => inl tt
     | inr e => if is_KeyboardInterrupt e then inl tt else inr e
     end).
Proof.
  unfold run. eff_unfold.
  destruct (for_stdin env self stdin w) as [[t w1] [[]|e]]; simpl;
    [reflexivity|].
  destruct (is_KeyboardInterrupt e); simpl; [|reflexivity].
  now rewrite app_nil_r.
Qed.

Lemma run_returns (line : pystr) (rest : list stdin_item)
      (w w' : World) (t : list event) :
  handle_line env self line w = (t, w', inl tt) ->
  run env self (Line line :: rest) w
  = let out := run env self rest w' in
    (t ++ Eff.trace_of out, Eff.world_of out, Eff.result_of out).
Proof.
  intros H. rewrite !run_spec, (for_stdin_returns _ rest _ _ _ H). simpl.
  eff_unfold. simpl. now rewrite app_assoc.
Qed.

(** *** One iteration, by the class of its line *)

Lemma handle_line_classified (line : pystr) (k : nat) :
  let out := handle_line env self line {| posts := k |} in
  stdout_of (Eff.trace_of out)
  = line_stdout env (classify env self k line)
  /\ Eff.world_of out = {| posts := posts_after env k line |}
  /\ Eff.result_of out
     = match classify env self k line with
       | Escaped e => inr e
       | _ => inl tt
       end.
Proof.
  unfold classify, posts_after.
  destruct (is_empty (strip line)) eqn:Hb.
  - rewrite (handle_line_blank _ _ Hb). now simpl.
  - destruct (json_loads env (strip line)) as [request|e] eqn:Hl.
    + rewrite (handle_line_request _ _ _ Hb Hl).
      destruct (exchange env self k request) as [v|e].
      * destruct (truthy v); now simpl.
      * destruct (is_Exception e); now simpl.
    + destruct (is_JSONDecodeError e) eqn:He.
      * rewrite (handle_line_malformed _ _ _ Hb Hl He). now simpl.
      * rewrite (handle_line_loads_raises _ _ _ Hb Hl He). now simpl.
Qed.

(** The classes tell the truth value of the body. *)
Lemma classify_truth (k : nat) (line : pystr) :
  class_wf (classify env self k line).
Proof.
  unfold classify.
  destruct (is_empty (strip line)); [exact I|].
  destruct (json_loads env (strip line)) as [request|e].
  - destruct (exchange env self k request) as [v|e].
    + destruct (truthy v) eqn:Ht; exact Ht.
    + destruct (is_Exception e); exact I.
  - destruct (is_JSONDecodeError e); exact I.
Qed.

Lemma stdout_of_app (t1 t2 : list event) :
  stdout_of (t1 ++ t2) = stdout_of t1 ++ stdout_of t2.
Proof. unfold stdout_of. apply flat_map_app. Qed.

(** The output of a run over lines none of which lets an exception
    escape: the outputs of the lines, in their order. *)
Lemma for_lines_stdout (lines : list pystr) (k : nat) :
  forallb (fun c => negb (is_escaped c)) (classes env self k lines) = true ->
  let out := for_stdin env self (map Line lines) {| posts := k |} in
  stdout_of (Eff.trace_of out)
  = flat_map (line_stdout env) (classes env self k lines)
  /\ Eff.result_of out = inl tt.
Proof.
  revert k. induction lines as [|line rest IH]; intros k Hq.
  - now split.
  - change (map Line (line :: rest)) with (Line line :: map Line rest).
    change (classes env self k (line :: rest))
      with (classify env self k line
              :: classes env self (posts_after env k line) rest) in *.
    cbn [forallb flat_map] in *.
    apply andb_true_iff in Hq as [Hc Hrest].
    destruct (handle_line_classified line k) as (Ho & Hw & Hr).
    destruct (IH _ Hrest) as [IH1 IH2].
    cbv zeta in *. rewrite for_stdin_line. cbv zeta.
    rewrite Hr, Hw.
    destruct (classify env self k line) eqn:Hcl; try discriminate;
      unfold Eff.trace_of, Eff.result_of in *; cbn [fst snd];
      rewrite stdout_of_app, IH1, Ho, IH2; now split.
Qed.

(** A part of the input that the loop gets through is followed by the
    rest. *)
Lemma for_stdin_app (s1 s2 : list stdin_item) :
  forall w : World,
    Eff.result_of (for_stdin env self s1 w) = inl tt ->
    for_stdin env self (s1 ++ s2) w
    = (let o1 := for_stdin env self s1 w in
       let o2 := for_stdin env self s2 (Eff.world_of o1) in
       (Eff.trace_of o1 ++ Eff.trace_of o2, Eff.world_of o2,
        Eff.result_of o2)).
Proof.
  induction s1 as [|[line|e] s1 IH]; intros w Hr.
  - cbn [app for_stdin]. cbv zeta.
    unfold Eff.ret, Eff.trace_of, Eff.world_of, Eff.result_of. cbn [fst snd app].
    now destruct (for_stdin env self s2 w) as [[t2 w2] r2].
  - change ((Line line :: s1) ++ s2) with (Line line :: (s1 ++ s2)).
    rewrite (for_stdin_line line (s1 ++ s2) w).
    rewrite (for_stdin_line line s1 w) in Hr |- *. cbv zeta in *.
    destruct (handle_line env self line w) as [[t w1] [[]|e]];
      unfold Eff.trace_of, Eff.result_of, Eff.world_of in *;
      cbn [fst snd] in *; [|discriminate].
    rewrite (IH w1 Hr). cbn [fst snd]. now rewrite app_assoc.
  - discriminate.
Qed.

(** Everything the bridge writes to standard output is the serialization
    of a truthy response followed by a newline. *)
Lemma handle_line_stdout_form (line : pystr) (w : World) (chunk : pystr) :
  In chunk (stdout_of (Eff.trace_of (handle_line env self line w))) ->
  exists v : pyvalue, chunk = dumps v ++ [newline] /\ truthy v = true.
Proof.
  destruct w as [k].
  destruct (handle_line_classified line k) as (Ho & _ & _). cbv zeta in Ho.
  rewrite Ho. pose proof (classify_truth k line) as Hwf.
  destruct (classify env self k line) as [| | | |v|]; cbn [line_stdout In];
    try tauto.
  intros [<-|[]]. now exists v.
Qed.

Lemma for_stdin_stdout_form (stdin : list stdin_item) (chunk : pystr) :
  forall w : World,
    In chunk (stdout_of (Eff.trace_of (for_stdin env self stdin w))) ->
    exists v : pyvalue, chunk = dumps v ++ [newline] /\ truthy v = true.
Proof.
  induction stdin as [|[line|e] rest IH]; intros w.
  - intros [].
  - rewrite for_stdin_line. cbv zeta.
    pose proof (handle_line_stdout_form line w chunk) as Hh.
    destruct (handle_line env self line w) as [[t w1] [[]|e]];
      unfold Eff.trace_of, Eff.result_of, Eff.world_of in *;
      cbn [fst snd] in *; [|exact Hh].
    rewrite stdout_of_app, in_app_iff. intros [H|H]; [auto|].
    exact (IH w1 H).
  - intros [].
Qed.

(** With a [float.__repr__] that prints ASCII, as that of Python does,
    every write to standard output is exactly one line: the output lines
    of a run are the elements of [stdout_of]. *)
Lemma stdout_chunks_are_lines (stdin : list stdin_item) (w : World) :
  (forall f : spec_float,
      forallb Json.printable (float_repr env f) = true) ->
  Forall Json.one_line (stdout_of (Eff.trace_of (run env self stdin w))).
Proof.
  intros Hf. apply Forall_forall. intros chunk Hc.
  rewrite run_spec in Hc. cbv zeta in Hc.
  unfold Eff.trace_of at 1 in Hc. cbn [fst] in Hc.
  rewrite stdout_of_app, in_app_iff in Hc. destruct Hc as [Hc|[]].
  destruct (for_stdin_stdout_form stdin chunk w Hc) as (v & -> & _).
  apply JsonFacts.dumps_one_line. exact Hf.
Qed.
End Lines.
End StreamingFacts.
 
Module StreamingClaims.
Import MCPStreamingClient PyFacts StreamingFacts Scenarios.

Lemma stdout_of_run (env : Env) (self : client) (stdin : list stdin_item)
      (w : World) :
  stdout_of (Eff.trace_of (run env self stdin w))
  = stdout_of (Eff.trace_of (for_stdin env self stdin w)).
Proof.
  rewrite run_spec. cbv zeta. unfold Eff.trace_of at 1. cbn [fst].
  rewrite stdout_of_app. cbn. apply app_nil_r.
Qed.

Lemma count_classes (cs : list line_class) :
  count is_blank cs + count is_malformed cs + count is_failed cs
  + count is_dropped cs + count is_answered cs + count is_escaped cs
  = List.length cs.
Proof.
  unfold count. induction cs as [|c cs IH]; [reflexivity|].
  destruct c; cbn [filter is_blank is_malformed is_failed is_dropped
                   is_answered is_escaped List.length]; lia.
Qed.

Lemma count_zero (p : line_class -> bool) (cs : list line_class) :
  forallb (fun c => negb (p c)) cs = true -> count p cs = 0.
Proof.
  unfold count. induction cs as [|c cs IH]; [reflexivity|].
  cbn [forallb filter]. intros H. apply andb_true_iff in H as [Hc H].
  destruct (p c); [discriminate | auto].
Qed.

Lemma length_line_stdout (env : Env) (cs : list line_class) :
  List.length (flat_map (line_stdout env) cs) = count is_answered cs.
Proof.
  unfold count. induction cs as [|c cs IH]; [reflexivity|].
  destruct c; cbn [flat_map line_stdout filter is_answered app List.length];
    auto.
Qed.

Lemma classes_length (env : Env) (self : client) (lines : list pystr) :
  forall k, List.length (classes env self k lines) = List.length lines.
Proof. induction lines; intros k; simpl; auto. Qed.

(** C1, as amended.  Partial failure isolation: over input lines none of
    which lets an exception escape the loop, every line whose request
    succeeds with a truthy body has its output line on standard output,
    whatever happens to the other lines; the output lines are those of
    the answered lines in their order; and when every successful body is
    truthy their number is the number of input lines minus the blank
    ones, the malformed ones and the ones whose request failed. *)
Theorem partial_failure_count (env : Env) (url : pystr)
        (lines : list pystr) :
  let cs := classes env (init url) 0 lines in
  let out := stdout_of (fst (main env url (map Line lines))) in
  forallb (fun c => negb (is_escaped c)) cs = true ->
  (forall v, In (Answered v) cs -> In (json_dumps env v ++ [newline]) out)
  /\ out = flat_map (line_stdout env) cs
  /\ (forallb (fun c => negb (is_dropped c)) cs = true ->
      List.length out
      = List.length lines - count is_failed cs - count is_malformed cs
        - count is_blank cs).
Proof.
  intros cs out He.
  assert (Hout : out = flat_map (line_stdout env) cs).
  { subst out. unfold main. cbn [fst].
    rewrite stdout_of_run.
    now destruct (for_lines_stdout env (init url) lines 0 He). }
  split; [|split]; [| exact Hout |].
  - intros v Hv. rewrite Hout. apply in_flat_map.
    exists (Answered v). split; [assumption | now left].
  - intros Hd. rewrite Hout, length_line_stdout.
    pose proof (count_classes cs) as Hc.
    rewrite (count_zero is_escaped cs He), (count_zero is_dropped cs Hd) in Hc.
    pose proof (classes_length env (init url) lines 0) as Hn.
    fold cs in Hn. lia.
Qed.

Lemma partial_failure_count_witness :
  let lines := [search_line; blank_line; search_line; malformed_line;
                search_line] in
  let cs := classes flaky_env (init gateway) 0 lines in
  let out := stdout_of (fst (main flaky_env gateway (map Line lines))) in
  forallb (fun c => negb (is_escaped c)) cs = true
  /\ forallb (fun c => negb (is_dropped c)) cs = true
  /\ (forall v, In (Answered v) cs ->
                In (json_dumps flaky_env v ++ [newline]) out)
  /\ out = flat_map (line_stdout flaky_env) cs
  /\ List.length out
     = List.length lines - count is_failed cs - count is_malformed cs
       - count is_blank cs.
Proof.
  intros lines cs out.
  assert (He : forallb (fun c => negb (is_escaped c)) cs = true)
    by (vm_compute; reflexivity).
  assert (Hd : forallb (fun c => negb (is_dropped c)) cs = true)
    by (vm_compute; reflexivity).
  destruct (partial_failure_count flaky_env gateway lines He)
    as (H1 & H2 & H3).
  exact (conj He (conj Hd (conj H1 (conj H2 (H3 Hd))))).
Defined.

(** C1, as stated, fails on a blank line.  Five input lines: a request
    that succeeds, a blank line, a request that fails with a connection
    error, a malformed line and a request that succeeds, every successful
    body being truthy.  One request fails and one line is malformed, and
    there are two output lines, not the three of the formula. *)
Lemma blank_line_breaks_count :
  let lines := [search_line; blank_line; search_line; malformed_line;
                search_line] in
  let cs := classes flaky_env (init gateway) 0 lines in
  let out := stdout_of (fst (main flaky_env gateway (map Line lines))) in
  cs = [Answered echo_value; Blank;
        Failed (Exn ConnectionError (py "connection reset"));
        Malformed (Exn JSONDecodeError (py "Expecting value"));
        Answered echo_value]
  /\ List.length lines = 5
  /\ count is_failed cs = 1
  /\ count is_malformed cs = 1
  /\ List.length out = 2
  /\ List.length out
     <> List.length lines - count is_failed cs - count is_malformed cs.
Proof. vm_compute. repeat split; try reflexivity. discriminate. Qed.

(** C2 at its failing input.  The endpoint answers the search request
    with status 200 and the body of the empty JSON object: the request
    succeeds with a JSON body, and the bridge writes nothing, neither to
    standard output nor to the error channel. *)
Theorem empty_response_not_forwarded :
  let self := init gateway in
  let t := fst (main empty_object_env gateway [Line search_line]) in
  json_loads empty_object_env (strip search_line) = inl search_request
  /\ exchange empty_object_env self 0 search_request = inl (PyDict [])
  /\ t = [Post (post_args self search_request); SessionClose]
  /\ stdout_of t = []
  /\ stderr_of t = [].
Proof. vm_compute. repeat split; reflexivity. Qed.

(** The part of C2 the code keeps: a valid line whose request succeeds
    with a truthy body is answered by one write of the serialized body
    and a newline, flushed at once, and nothing else. *)
Lemma answered_line_events (env : Env) (self : client) (line : pystr)
      (request v : pyvalue) (k : nat) :
  is_empty (strip line) = false ->
  json_loads env (strip line) = inl request ->
  exchange env self k request = inl v ->
  truthy v = true ->
  handle_line env self line {| posts := k |}
  = ([Post (post_args self request);
      Stdout (json_dumps env v ++ [newline]); StdoutFlush],
     {| posts := S k |}, inl tt).
Proof.
  intros Hb Hl Hx Ht.
  now rewrite (handle_line_request env self line request k Hb Hl), Hx, Ht.
Qed.

(** The echo scenario: the output is one line, the echoed JSON in the
    spelling of [json.dumps] (a space after each colon and comma); it
    decodes to the value of the echoed body. *)
Example echo_scenario :
  let t := fst (main echo_env gateway [Line search_line]) in
  stdout_of t
  = [pyq "{'jsonrpc': '2.0', 'id': 1, 'result': {'content': [{'text': 'ok'}]}}"
     ++ [newline]]
  /\ stderr_of t = []
  /\ Stub.loads (concat (stdout_of t)) = Stub.loads echo_body
  /\ Stub.loads echo_body = inl echo_value.
Proof. vm_compute. repeat split; reflexivity. Qed.

(** The part of C3 the code keeps: a non-blank line that [json.loads]
    rejects with a decode error writes one diagnostic to the error channel and nothing else (no POST,
    no output), leaves the world as it was, and the run goes on with the
    rest of the input as it would without the line. *)
Theorem malformed_line_reported_and_skipped (env : Env) (self : client)
        (line : pystr) (e : exn) (rest : list stdin_item) (w : World) :
  is_empty (strip line) = false ->
  json_loads env (strip line) = inr e ->
  is_JSONDecodeError e = true ->
  let diag := Stderr (py "JSON decode error: " ++ msg e ++ [newline]) in
  handle_line env self line w = ([diag], w, inl tt)
  /\ run env self (Line line :: rest) w
     = (diag :: Eff.trace_of (run env self rest w),
        Eff.world_of (run env self rest w),
        Eff.result_of (run env self rest w)).
Proof.
  intros Hb Hl He diag.
  pose proof (handle_line_malformed env self line e w Hb Hl He) as H.
  split; [exact H|].
  now rewrite (run_returns env self line rest w w [diag] H).
Qed.

Lemma malformed_line_reported_and_skipped_witness :
  let self := init gateway in
  let e := Exn JSONDecodeError (py "Expecting value") in
  let rest := [Line search_line] in
  let w := {| posts := 0 |} in
  let diag := Stderr (py "JSON decode error: " ++ msg e ++ [newline]) in
  handle_line echo_env self malformed_line w = ([diag], w, inl tt)
  /\ run echo_env self (Line malformed_line :: rest) w
     = (diag :: Eff.trace_of (run echo_env self rest w),
        Eff.world_of (run echo_env self rest w),
        Eff.result_of (run echo_env self rest w)).
Proof.
  intros self e rest w.
  apply (malformed_line_reported_and_skipped echo_env self malformed_line
           e rest w); reflexivity.
Defined.

(** C3 at its failing input.  A line of 2000 opening brackets is not
    valid JSON, and the decoder gives up on it with a [RecursionError],
    which is no [JSONDecodeError]: [run] does not catch it.  The bridge
    answers the line before it, writes no diagnostic of its own for the
    deep line, closes the session and ends with status 1; the request
    after the deep line is never read. *)
Theorem deeply_nested_line_ends_run :
  let stdin := [Line search_line; Line MoreScenarios.deep_line;
                Line search_line] in
  let p := main MoreScenarios.recursion_env gateway stdin in
  json_loads MoreScenarios.recursion_env (strip MoreScenarios.deep_line)
  = inr MoreScenarios.recursion_error
  /\ is_JSONDecodeError MoreScenarios.recursion_error = false
  /\ fst p
     = [Post (post_args (init gateway) search_request);
        Stdout (json_dumps MoreScenarios.recursion_env echo_value
                ++ [newline]);
        StdoutFlush; SessionClose]
  /\ stderr_of (fst p) = []
  /\ List.length (posts_of (fst p)) = 1
  /\ snd p = 1%Z
  /\ snd p <> 0%Z.
Proof. vm_compute. repeat split; try reflexivity. discriminate. Qed.

Lemma classes_wf (env : Env) (self : client) (lines : list pystr) :
  forall k, Forall class_wf (classes env self k lines).
Proof.
  induction lines as [|line rest IH]; intros k; simpl; constructor;
    [apply StreamingFacts.classify_truth | apply IH].
Qed.

Lemma line_stdout_responses (env : Env) (cs : list line_class) :
  Forall class_wf cs ->
  flat_map (line_stdout env) cs
  = map (fun v => json_dumps env v ++ [newline])
        (filter truthy (responses cs)).
Proof.
  induction 1 as [|c cs Hc _ IH]; [reflexivity|].
  unfold responses in *. cbn [flat_map]. rewrite IH. clear IH.
  destruct c; cbn [line_stdout app filter class_wf] in *;
    try reflexivity; now rewrite Hc.
Qed.

Lemma responses_length (cs : list line_class) :
  forallb (fun c => is_answered c || is_dropped c) cs = true ->
  List.length (responses cs) = List.length cs.
Proof.
  unfold responses. induction cs as [|c cs IH]; [reflexivity|].
  cbn [forallb flat_map]. intros H. apply andb_true_iff in H as [Hc H].
  destruct c; try discriminate; cbn [app List.length]; now rewrite IH.
Qed.

(** The part of C4 the code keeps.  Order preservation: over input
    lines none of which lets an exception escape the loop, the output
    lines are the serialized
    bodies, in the order of their input lines, of the responses that are
    forwarded; a failed request contributes none.  When every line is
    valid and its request succeeds there is one response per input line,
    and when moreover the bodies are truthy, one output line per input
    line. *)
Theorem output_order_preserved (env : Env) (url : pystr)
        (lines : list pystr) :
  let cs := classes env (init url) 0 lines in
  let out := stdout_of (fst (main env url (map Line lines))) in
  let print := fun v => json_dumps env v ++ [newline] in
  forallb (fun c => negb (is_escaped c)) cs = true ->
  out = map print (filter truthy (responses cs))
  /\ (forallb (fun c => is_answered c || is_dropped c) cs = true ->
      List.length (responses cs) = List.length lines
      /\ (forallb truthy (responses cs) = true ->
          out = map print (responses cs))).
Proof.
  intros cs out print He.
  assert (Hout : out = map print (filter truthy (responses cs))).
  { subst out. unfold main. cbn [fst]. rewrite stdout_of_run.
    destruct (for_lines_stdout env (init url) lines 0 He) as [-> _].
    apply line_stdout_responses, classes_wf. }
  split; [exact Hout|]. intros Hv. split.
  - rewrite (responses_length cs Hv). apply classes_length.
  - intros Ht. rewrite Hout. f_equal.
    apply forallb_filter_id. exact Ht.
Qed.

Lemma output_order_preserved_witness :
  let lines := [ping_line (py "1"); ping_line (py "2");
                ping_line (py "3")] in
  let cs := classes numbered_env (init gateway) 0 lines in
  let out := stdout_of (fst (main numbered_env gateway (map Line lines))) in
  let print := fun v => json_dumps numbered_env v ++ [newline] in
  forallb (fun c => negb (is_escaped c)) cs = true
  /\ forallb (fun c => is_answered c || is_dropped c) cs = true
  /\ forallb truthy (responses cs) = true
  /\ responses cs = [result_value 1; result_value 2; result_value 3]
  /\ out = map print (filter truthy (responses cs))
  /\ List.length (responses cs) = List.length lines
  /\ out = map print (responses cs).
Proof.
  intros lines cs out print.
  assert (He : forallb (fun c => negb (is_escaped c)) cs = true)
    by (vm_compute; reflexivity).
  assert (Hv : forallb (fun c => is_answered c || is_dropped c) cs = true)
    by (vm_compute; reflexivity).
  assert (Ht : forallb truthy (responses cs) = true)
    by (vm_compute; reflexivity).
  assert (Hr : responses cs
               = [result_value 1; result_value 2; result_value 3])
    by (vm_compute; reflexivity).
  destruct (output_order_preserved numbered_env gateway lines He)
    as [H1 H2].
  destruct (H2 Hv) as [H3 H4].
  exact (conj He (conj Hv (conj Ht (conj Hr (conj H1
                                               (conj H3 (H4 Ht))))))).
Defined.

(** C4 at its failing input.  Three valid lines with the ids 1, 2 and
    3; every request succeeds, the second with the body of the empty
    JSON object.  There are three successful responses and two output
    lines, the answers to the first and to the third line in that
    order: the second line has no output line, so the correspondence of
    output lines to valid lines with successful requests is not 1:1. *)
Theorem empty_response_breaks_correspondence :
  let lines := [ping_line (py "1"); ping_line (py "2");
                ping_line (py "3")] in
  let cs := classes sparse_env (init gateway) 0 lines in
  let t := fst (main sparse_env gateway (map Line lines)) in
  cs = [Answered (result_value 1); Dropped (PyDict []);
        Answered (result_value 3)]
  /\ responses cs = [result_value 1; PyDict []; result_value 3]
  /\ List.length (posts_of t) = 3
  /\ stdout_of t
     = [pyq "{'jsonrpc': '2.0', 'id': 1, 'result': {'ok': true}}"
        ++ [newline];
        pyq "{'jsonrpc': '2.0', 'id': 3, 'result': {'ok': true}}"
        ++ [newline]]
  /\ stderr_of t = []
  /\ List.length (stdout_of t) <> List.length lines.
Proof. vm_compute. repeat split; try reflexivity. discriminate. Qed.

(** C8.  A line of white space only is skipped: no event at all, so no
    request and no output.  A non-blank line that decodes to [request]
    starts with one POST, the only one of the line, to the base URL
    followed by [/mcp], with [request] as JSON body, the header
    [Content-Type: application/json] and a timeout of 300 seconds. *)
Theorem blank_skipped_valid_posted (env : Env) (self : client)
        (line : pystr) (k : nat) :
  (forallb is_space line = true ->
   handle_line env self line {| posts := k |}
   = ([], {| posts := k |}, inl tt))
  /\ (forall request : pyvalue,
         is_empty (strip line) = false ->
         json_loads env (strip line) = inl request ->
         exists rest : list event,
           Eff.trace_of (handle_line env self line {| posts := k |})
           = Post {| url := base_url self ++ py "/mcp";
                     json := request;
                     headers := [(py "Content-Type",
                                  py "application/json")];
                     timeout := 300 |} :: rest
           /\ posts_of rest = []).
Proof.
  split.
  - intros H. apply handle_line_blank. now apply strip_empty_iff.
  - intros request Hb Hl.
    rewrite (handle_line_request env self line request k Hb Hl).
    fold (post_args self request).
    destruct (exchange env self k request) as [v|e].
    + destruct (truthy v); eexists; split; reflexivity.
    + destruct (is_Exception e); eexists; split; reflexivity.
Qed.

Lemma blank_skipped_valid_posted_witness :
  handle_line echo_env (init gateway) blank_line {| posts := 0 |}
  = ([], {| posts := 0 |}, inl tt)
  /\ exists rest : list event,
       Eff.trace_of
         (handle_line echo_env (init gateway) search_line {| posts := 0 |})
       = Post {| url := py "http://gateway:8080/mcp";
                 json := search_request;
                 headers := [(py "Content-Type", py "application/json")];
                 timeout := 300 |} :: rest
       /\ posts_of rest = [].
Proof.
  split.
  - apply (proj1 (blank_skipped_valid_posted echo_env (init gateway)
                    blank_line 0)).
    reflexivity.
  - apply (proj2 (blank_skipped_valid_posted echo_env (init gateway)
                    search_line 0) search_request); reflexivity.
Defined.

(** Every POST of a run goes to the base URL of the client followed by
    [/mcp]. *)
Lemma posts_of_app (t1 t2 : list event) :
  posts_of (t1 ++ t2) = posts_of t1 ++ posts_of t2.
Proof. unfold posts_of. apply flat_map_app. Qed.

Lemma handle_line_posts (env : Env) (self : client) (line : pystr)
      (w : World) (req : Request) :
  In req (posts_of (Eff.trace_of (handle_line env self line w))) ->
  url req = base_url self ++ py "/mcp".
Proof.
  destruct w as [k].
  destruct (is_empty (strip line)) eqn:Hb.
  - rewrite (handle_line_blank env self line _ Hb). intros [].
  - destruct (json_loads env (strip line)) as [request|e] eqn:Hl.
    + rewrite (handle_line_request env self line request k Hb Hl).
      destruct (exchange env self k request) as [v|e].
      * destruct (truthy v); intros [<-|[]]; reflexivity.
      * destruct (is_Exception e); intros [<-|[]]; reflexivity.
    + destruct (is_JSONDecodeError e) eqn:He.
      * rewrite (handle_line_malformed env self line e _ Hb Hl He).
        intros [].
      * rewrite (handle_line_loads_raises env self line e _ Hb Hl He).
        intros [].
Qed.

Lemma for_stdin_posts (env : Env) (self : client)
      (stdin : list stdin_item) (req : Request) :
  forall w : World,
    In req (posts_of (Eff.trace_of (for_stdin env self stdin w))) ->
    url req = base_url self ++ py "/mcp".
Proof.
  induction stdin as [|[line|e] rest IH]; intros w.
  - intros [].
  - rewrite for_stdin_line. cbv zeta.
    pose proof (handle_line_posts env self line w req) as Hh.
    destruct (handle_line env self line w) as [[t w1] [[]|e]];
      unfold Eff.trace_of, Eff.result_of, Eff.world_of in *; cbn [fst snd] in *.
    + rewrite posts_of_app, in_app_iff. intros [H|H]; [auto|].
      exact (IH w1 H).
    + exact Hh.
  - intros [].
Qed.

(** C9.  Base URL normalization.  Write the base URL [u] as a text
    [base] that does not end with a slash followed by slashes only (there
    is one way to do so).  Then the client made from [u] followed by any
    number of further slashes has [base] as its base URL and sends every
    POST to [base] followed by [/mcp]; it is the client made from [u],
    and the bridge behaves the same with both; constructing a client
    from the normalized URL gives the same client again. *)
Theorem base_url_trailing_slashes (env : Env) (u : pystr) (k : nat)
        (stdin : list stdin_item) :
  let u' := u ++ repeat 47%N k in
  init u' = init u
  /\ main env u' stdin = main env u stdin
  /\ (exists (base : pystr) (j : nat),
         u = base ++ repeat 47%N j
         /\ StreamingObs.not_ending_with 47%N base)
  /\ (forall (base : pystr) (j : nat),
         u = base ++ repeat 47%N j ->
         StreamingObs.not_ending_with 47%N base ->
         base_url (init u) = base
         /\ base_url (init u') = base
         /\ forall req : Request,
              In req (posts_of (fst (main env u' stdin))) ->
              url req = base ++ py "/mcp")
  /\ init (base_url (init u')) = init u.
Proof.
  intros u'.
  assert (Hi : init u' = init u).
  { unfold init, u'. f_equal. apply rstrip_chars_app_all.
    now apply repeat_all. }
  destruct (rstrip_slashes_split u) as (j0 & Hu & Hn).
  split; [exact Hi|]. split; [|split; [|split]].
  - unfold main. now rewrite Hi.
  - exists (rstrip_chars (py "/") u), j0. split; [exact Hu | exact Hn].
  - intros base j Hb Hne.
    assert (Hbase : base_url (init u) = base).
    { unfold init. cbn [base_url].
      apply (slashes_split_unique (rstrip_chars (py "/") u) base j0 j);
        [now rewrite <- Hu, <- Hb | exact Hn | exact Hne]. }
    split; [exact Hbase|]. split; [now rewrite Hi|].
    intros req. unfold main. rewrite Hi. cbn [fst].
    rewrite run_spec. cbv zeta. unfold Eff.trace_of at 1. cbn [fst].
    rewrite posts_of_app, in_app_iff. intros [H|[]].
    rewrite <- Hbase.
    exact (for_stdin_posts env (init u) stdin req _ H).
  - rewrite Hi. unfold init. cbn [base_url]. f_equal.
    apply rstrip_chars_idem.
Qed.

Lemma base_url_trailing_slashes_witness :
  let base := py "http://gateway:8080" in
  let u := base ++ py "/" in
  let u' := u ++ py "//" in
  let t := fst (main echo_env u' [Line search_line; Line search_line]) in
  base_url (init u) = base
  /\ base_url (init u') = base
  /\ List.length (posts_of t) = 2
  /\ forall req : Request,
       In req (posts_of t) -> url req = py "http://gateway:8080/mcp".
Proof.
  intros base u u' t.
  assert (Hne : StreamingObs.not_ending_with 47%N base).
  { intros s' E. apply (f_equal (@rev N)) in E.
    rewrite rev_app_distr in E. vm_compute in E. discriminate. }
  destruct (base_url_trailing_slashes echo_env u 2
              [Line search_line; Line search_line])
    as (_ & _ & _ & H & _).
  destruct (H base 1 eq_refl Hne) as (H1 & H2 & H3).
  split; [exact H1|]. split; [exact H2|]. split; [reflexivity|].
  exact H3.
Defined.


End StreamingClaims.

(** ** Mode B *)

Module NetworkFacts.
Import MCPNetworkBridge.

Section Loops.
Variable env : Env.

(** *** [connect] *)

Lemma connect_spec (self : bridge) (w : World) :
  connect env self w
  = match socket_new env with
    | Some e =>
        if is_Exception e
        then ([Stderr (py "Connection failed: " ++ msg e ++ [newline])],
              w, inl false)
        else ([], w, inr e)
    | None =>
        let w' := {| socket := Some Sock; sends := sends w |} in
        match socket_connect env (host self) (port self) with
        | None => ([SocketNew; Connect (host self) (port self)], w',
                   inl true)
        | Some e =>
            if is_Exception e
            then ([SocketNew; Connect (host self) (port self);
                   Stderr (py "Connection failed: " ++ msg e
                           ++ [newline])],
                  w', inl false)
            else ([SocketNew; Connect (host self) (port self)], w',
                  inr e)
        end
    end.
Proof.
  unfold connect, new_socket, sock_connect, of_outcome, print_stderr.
  eff_unfold.
  destruct (socket_new env) as [e|]; simpl.
  - destruct (is_Exception e); simpl; [now rewrite <- ?app_assoc|reflexivity].
  - destruct (socket_connect env (host self) (port self)) as [e|]; simpl;
      [|reflexivity].
    destruct (is_Exception e); simpl; [now rewrite <- ?app_assoc|reflexivity].
Qed.

(** *** Socket to standard output *)

Lemma socket_to_stdio_loop_spec (recvs : list recv_item) (w : World) :
  socket w <> None ->
  socket_to_stdio_loop recvs w
  = (flat_map relay (chunks_before_end recvs) ++ [Recv 4096], w,
     match recv_error recvs with
     | None => inl tt
     | Some e => inr e
     end).
Proof.
  intros Hs. induction recvs as [|[[|b d]|e] rest IH];
    cbn [socket_to_stdio_loop chunks_before_end recv_error flat_map];
    unfold Eff.bind at 1; unfold Eff.get at 1;
    destruct (socket w) as [s|]; try congruence;
    try reflexivity.
  unfold Eff.bind at 1. unfold Eff.emit at 1.
  unfold Eff.bind at 1. unfold Eff.emit at 1.
  unfold Eff.bind at 1. unfold Eff.emit at 1.
  rewrite IH. reflexivity.
Qed.

Lemma forward_socket_to_stdio_spec (recvs : list recv_item) (w : World) :
  socket w <> None ->
  forward_socket_to_stdio recvs w
  = match recv_error recvs with
    | None =>
        (flat_map relay (chunks_before_end recvs) ++ [Recv 4096], w,
         inl tt)
    | Some e =>
        if is_Exception e
        then (flat_map relay (chunks_before_end recvs)
              ++ [Recv 4096;
                  Stderr (py "Error forwarding to stdio: " ++ msg e
                          ++ [newline])],
              w, inl tt)
        else (flat_map relay (chunks_before_end recvs) ++ [Recv 4096],
              w, inr e)
    end.
Proof.
  intros Hs. unfold forward_socket_to_stdio, Eff.try_except.
  rewrite (socket_to_stdio_loop_spec recvs w Hs).
  destruct (recv_error recvs) as [e|]; [|reflexivity].
  destruct (is_Exception e); [|reflexivity].
  unfold print_stderr, Eff.emit.
  now rewrite <- !app_assoc.
Qed.

Lemma written_of_relays (chunks : list bytes) (tail : list event) :
  written_of (flat_map relay chunks ++ tail) = chunks ++ written_of tail.
Proof.
  unfold written_of. rewrite flat_map_app. f_equal.
  induction chunks as [|d chunks IH]; [reflexivity|].
  cbn. now rewrite IH.
Qed.

(** The chunks relayed are the items of the socket up to the first
    that is empty or raises. *)
Lemma chunks_before_end_spec (recvs : list recv_item) :
  exists rest : list recv_item,
    recvs = map Data (chunks_before_end recvs) ++ rest
    /\ Forall (fun d => d <> []) (chunks_before_end recvs)
    /\ match rest with
       | [] => recv_error recvs = None
       | Data d :: _ => d = [] /\ recv_error recvs = None
       | RecvRaises e :: _ => recv_error recvs = Some e
       end.
Proof.
  induction recvs as [|[[|b d]|e] recvs (rest & H1 & H2 & H3)].
  - exists []. repeat split. constructor.
  - exists (Data [] :: recvs). repeat split. constructor.
  - exists rest. cbn [chunks_before_end recv_error map app].
    split; [now rewrite <- H1|]. split; [|exact H3].
    constructor; [discriminate | exact H2].
  - exists (RecvRaises e :: recvs). repeat split. constructor.
Qed.

(** *** Standard input to socket *)

Lemma stdio_to_socket_loop_spec (stdin : list bytes) :
  forall w : World,
    socket w <> None ->
    stdio_to_socket_loop env stdin w
    = (map Sendall (attempted env (sends w) stdin),
       {| socket := socket w;
          sends := sends w
                   + List.length (attempted env (sends w) stdin) |},
       match send_error env (sends w) stdin with
       | None => inl tt
       | Some e => inr e
       end).
Proof.
  induction stdin as [|[|b line] rest IH]; intros [s k] Hs;
    cbn [stdio_to_socket_loop attempted send_error map List.length
         socket sends] in *.
  - unfold Eff.ret. now rewrite Nat.add_0_r.
  - unfold Eff.ret. now rewrite Nat.add_0_r.
  - unfold Eff.bind at 1. unfold Eff.get at 1. cbn [socket].
    destruct s as [s|]; [|congruence].
    unfold Eff.bind at 1. unfold sock_sendall at 1.
    unfold Eff.bind at 1. unfold Eff.get at 1.
    unfold Eff.bind at 1. unfold Eff.emit at 1.
    unfold Eff.bind at 1. unfold Eff.put at 1.
    cbn [socket sends]. unfold of_outcome.
    destruct (socket_sendall env k (b :: line)) as [e|].
    + unfold Eff.raise. cbn. now rewrite Nat.add_1_r.
    + unfold Eff.ret at 1. cbn [app].
      rewrite (IH {| socket := Some s; sends := S k |} Hs).
      cbn [socket sends map app]. now rewrite Nat.add_succ_r.
Qed.

Lemma sent_of_sendalls (ds : list bytes) (tail : list event) :
  sent_of (map Sendall ds ++ tail) = ds ++ sent_of tail.
Proof.
  unfold sent_of. rewrite flat_map_app. f_equal.
  induction ds as [|d ds IH]; [reflexivity|]. cbn. now rewrite IH.
Qed.

Lemma sent_of_map (ds : list bytes) : sent_of (map Sendall ds) = ds.
Proof.
  rewrite <- (app_nil_r (map Sendall ds)), sent_of_sendalls.
  apply app_nil_r.
Qed.

Lemma forward_stdio_to_socket_sent (stdin : list bytes) (w : World) :
  socket w <> None ->
  sent_of (Eff.trace_of (forward_stdio_to_socket env stdin w))
  = attempted env (sends w) stdin.
Proof.
  intros Hs. unfold forward_stdio_to_socket, Eff.try_except.
  rewrite (stdio_to_socket_loop_spec stdin w Hs).
  destruct (send_error env (sends w) stdin) as [e|].
  - destruct (is_Exception e); unfold print_stderr, Eff.emit, Eff.trace_of;
      cbn [fst].
    + rewrite sent_of_sendalls. cbn. apply app_nil_r.
    + apply sent_of_map.
  - unfold Eff.trace_of; cbn [fst]. apply sent_of_map.
Qed.

Lemma attempted_prefix (stdin : list bytes) :
  forall k : nat,
  exists rest : list bytes,
    lines_before_eof stdin = attempted env k stdin ++ rest.
Proof.
  induction stdin as [|[|b line] stdin IH]; intros k;
    cbn [lines_before_eof attempted].
  - now exists [].
  - now exists [].
  - destruct (socket_sendall env k (b :: line)).
    + now exists (lines_before_eof stdin).
    + destruct (IH (S k)) as [rest ->]. now exists rest.
Qed.

Lemma attempted_all (stdin : list bytes) :
  forall k : nat,
    send_error env k stdin = None ->
    attempted env k stdin = lines_before_eof stdin.
Proof.
  induction stdin as [|[|b line] stdin IH]; intros k;
    cbn [lines_before_eof attempted send_error]; try reflexivity.
  destruct (socket_sendall env k (b :: line)); [discriminate|].
  intros H. now rewrite (IH (S k) H).
Qed.

Lemma attempted_stops (stdin : list bytes) :
  forall (k : nat) (e : exn),
    send_error env k stdin = Some e ->
    exists (before : list bytes) (last : bytes),
      attempted env k stdin = before ++ [last]
      /\ socket_sendall env (k + List.length before) last = Some e.
Proof.
  induction stdin as [|[|b line] stdin IH]; intros k e;
    cbn [attempted send_error]; try discriminate.
  destruct (socket_sendall env k (b :: line)) as [e'|] eqn:Hs.
  - intros [= <-]. exists [], (b :: line). split; [reflexivity|].
    cbn. now rewrite Nat.add_0_r.
  - intros H. destruct (IH (S k) e H) as (before & last & -> & Hl).
    exists ((b :: line) :: before), last. split; [reflexivity|].
    cbn [List.length]. now rewrite Nat.add_succ_r.
Qed.

Lemma send_error_none (stdin : list bytes) :
  (forall (n : nat) (d : bytes), socket_sendall env n d = None) ->
  forall k : nat, send_error env k stdin = None.
Proof.
  intros H. induction stdin as [|[|b line] stdin IH]; intros k;
    cbn [send_error]; try reflexivity.
  now rewrite H.
Qed.

(** *** [run] *)

(** The connection cannot be established: the diagnostic, then
    [sys.exit(1)], or the exception itself when [connect] does not
    catch it. *)
Lemma run_not_connected (self : bridge) (recvs : list recv_item)
      (w : World) (e : exn) :
  socket_new env = Some e
  \/ (socket_new env = None
      /\ socket_connect env (host self) (port self) = Some e) ->
  exists w1 : World,
    run env self recvs w
    = ((match socket_new env with
        | None => [SocketNew; Connect (host self) (port self)]
        | Some _ => []
        end)
       ++ (if is_Exception e
           then [Stderr (py "Connection failed: " ++ msg e ++ [newline])]
           else []),
       w1,
       inr (if is_Exception e
            then Exn (SystemExit 1) (Json.int_repr 1)
            else e)).
Proof.
  intros H. unfold run. unfold Eff.bind at 1. rewrite connect_spec.
  destruct H as [H|[H1 H2]].
  - rewrite H. destruct (is_Exception e); cbn; eexists; reflexivity.
  - rewrite H1. cbv zeta. rewrite H2.
    destruct (is_Exception e); cbn; eexists; reflexivity.
Qed.

(** The connection is established: the thread is started, the main
    thread forwards, and the socket is closed whatever ended the
    forwarding. *)
Lemma run_connected (self : bridge) (recvs : list recv_item) (w : World) :
  socket_new env = None ->
  socket_connect env (host self) (port self) = None ->
  let w' := {| socket := Some Sock; sends := sends w |} in
  let fwd := match thread_start env with
             | Some e => ([], w', inr e)
             | None => forward_socket_to_stdio recvs w'
             end in
  run env self recvs w
  = ([SocketNew; Connect (host self) (port self); ThreadStart]
     ++ Eff.trace_of fwd ++ [SocketClose],
     w',
     match Eff.result_of fwd with
     | inl _ => inl tt
     | inr e => if is_KeyboardInterrupt e then inl tt else inr e
     end).
Proof.
  intros H1 H2 w' fwd. unfold run, of_outcome. eff_unfold.
  rewrite connect_spec, H1. cbv zeta. rewrite H2. subst fwd.
  assert (Hs : socket w' <> None) by discriminate.
  destruct (thread_start env) as [e|].
  - cbn. destruct (is_KeyboardInterrupt e) eqn:Hk; cbn; now rewrite ?Hk.
  - cbn -[forward_socket_to_stdio]. fold w'.
    rewrite (forward_socket_to_stdio_spec recvs w' Hs).
    destruct (recv_error recvs) as [e|].
    + destruct (is_Exception e).
      * cbn. now rewrite <- !app_assoc.
      * destruct (is_KeyboardInterrupt e) eqn:Hk; cbn; rewrite ?Hk;
          now rewrite <- ?app_assoc, ?app_nil_r.
    + cbn. now rewrite <- !app_assoc.
Qed.

Lemma closes_of_app (t1 t2 : list event) :
  closes_of (t1 ++ t2) = closes_of t1 + closes_of t2.
Proof. unfold closes_of. now rewrite filter_app, length_app. Qed.

Lemma forward_socket_to_stdio_no_close (recvs : list recv_item)
      (w : World) :
  socket w <> None ->
  closes_of (Eff.trace_of (forward_socket_to_stdio recvs w)) = 0.
Proof.
  intros Hs. rewrite (forward_socket_to_stdio_spec recvs w Hs).
  assert (H : closes_of (flat_map relay (chunks_before_end recvs)) = 0).
  { induction (chunks_before_end recvs); [reflexivity|]. exact IHl. }
  destruct (recv_error recvs) as [e|]; [destruct (is_Exception e)|];
    unfold Eff.trace_of; cbn [fst]; now rewrite closes_of_app, H.
Qed.


(** *** The two threads together *)

Lemma forward_stdio_to_socket_writes_nothing (stdin : list bytes)
      (w : World) :
  socket w <> None ->
  forall ev : event,
    In ev (Eff.trace_of (forward_stdio_to_socket env stdin w)) ->
    match ev with
    | Sendall _ | Stderr _ => True
    | _ => False
    end.
Proof.
  intros Hs ev. unfold forward_stdio_to_socket, Eff.try_except.
  rewrite (stdio_to_socket_loop_spec stdin w Hs).
  assert (Hm : forall ds : list bytes,
             In ev (map Sendall ds) ->
             match ev with Sendall _ | Stderr _ => True | _ => False end).
  { intros ds Hin. apply in_map_iff in Hin as (d & <- & _). exact I. }
  destruct (send_error env (sends w) stdin) as [e|];
    [destruct (is_Exception e)|];
    unfold print_stderr, Eff.emit, Eff.trace_of; cbn [fst];
    try apply Hm.
  rewrite in_app_iff.
  intros [H|[<-|[]]]; [exact (Hm _ H) | exact I].
Qed.

Lemma sent_of_app (t1 t2 : list event) :
  sent_of (t1 ++ t2) = sent_of t1 ++ sent_of t2.
Proof. unfold sent_of. apply flat_map_app. Qed.

Lemma written_of_app (t1 t2 : list event) :
  written_of (t1 ++ t2) = written_of t1 ++ written_of t2.
Proof. unfold written_of. apply flat_map_app. Qed.

Lemma written_of_cons (ev : event) (t : list event) :
  written_of (ev :: t)
  = match ev with StdoutWrite d => [d] | _ => [] end ++ written_of t.
Proof. reflexivity. Qed.

Lemma sent_of_cons (ev : event) (t : list event) :
  sent_of (ev :: t)
  = match ev with Sendall d => [d] | _ => [] end ++ sent_of t.
Proof. reflexivity. Qed.

(** A merge shows of each thread what that thread did, when the other
    thread does nothing of the kind. *)
Lemma interleave_written (l r m : list event) :
  interleave l r m ->
  written_of r = [] ->
  written_of m = written_of l.
Proof.
  induction 1 as [|ev l r m _ IH|ev l r m _ IH]; intros Hr.
  - reflexivity.
  - now rewrite !written_of_cons, (IH Hr).
  - rewrite written_of_cons in *.
    apply app_eq_nil in Hr as [Hev Hr]. now rewrite Hev, (IH Hr).
Qed.

Lemma interleave_sent (l r m : list event) :
  interleave l r m ->
  sent_of l = [] ->
  sent_of m = sent_of r.
Proof.
  induction 1 as [|ev l r m _ IH|ev l r m _ IH]; intros Hl.
  - reflexivity.
  - rewrite sent_of_cons in *.
    apply app_eq_nil in Hl as [Hev Hl]. now rewrite Hev, (IH Hl).
  - now rewrite !sent_of_cons, (IH Hl).
Qed.

Lemma written_of_thread (stdin : list bytes) (w : World)
      (ran rest : list event) :
  socket w <> None ->
  Eff.trace_of (forward_stdio_to_socket env stdin w) = ran ++ rest ->
  written_of ran = [].
Proof.
  intros Hs Hr.
  assert (H : forall ev : event, In ev ran ->
                match ev with Sendall _ | Stderr _ => True | _ => False end).
  { intros ev Hin.
    apply (forward_stdio_to_socket_writes_nothing stdin w Hs).
    rewrite Hr. apply in_app_iff. now left. }
  clear Hr. induction ran as [|ev ran IH]; [reflexivity|].
  rewrite written_of_cons.
  rewrite IH by (intros ev' Hin; apply H; now right).
  specialize (H ev (or_introl eq_refl)). now destruct ev.
Qed.

(** The events of the main thread of a connected process. *)
Lemma main_events_connected (host : pystr) (port : Z) (stdin : list bytes)
      (recvs : list recv_item) :
  socket_new env = None ->
  socket_connect env host port = None ->
  thread_start env = None ->
  let p := main env host port stdin recvs in
  exists tail : list event,
    main_events p
    = [SocketNew; Connect host port] ++ ThreadStart
        :: (flat_map relay (chunks_before_end recvs) ++ Recv 4096 :: tail)
    /\ written_of tail = [] /\ sent_of tail = []
    /\ ~ In ThreadStart tail
    /\ thread_events p
       = Eff.trace_of (forward_stdio_to_socket
                         env stdin {| socket := Some Sock; sends := 0 |}).
Proof.
  intros H1 H2 H3 p. subst p. unfold main, init.
  rewrite (run_connected {| host := host; port := port |} recvs
             {| socket := None; sends := 0 |} H1 H2).
  cbv zeta. rewrite H3.
  cbn [sends MCPNetworkBridge.host MCPNetworkBridge.port].
  assert (Hs : socket {| socket := Some Sock; sends := 0 |} <> None)
    by discriminate.
  rewrite (forward_socket_to_stdio_spec recvs _ Hs).
  assert (Hstart : thread_start env = None) by exact H3.
  unfold thread_started. rewrite H3.
  destruct (recv_error recvs) as [e|]; [destruct (is_Exception e)|];
    unfold Eff.trace_of at 1 2; cbn [fst main_events thread_events];
    eexists; (split; [rewrite <- ?app_assoc; cbn [app]; reflexivity|]);
    cbn [existsb orb andb];
    (repeat split; try reflexivity;
     intros H; cbn in H; intuition discriminate).
Qed.

Lemma relays_no_sent (chunks : list bytes) :
  sent_of (flat_map relay chunks) = [].
Proof. induction chunks as [|d chunks IH]; [reflexivity | exact IH]. Qed.

Lemma relays_no_start (chunks : list bytes) :
  ~ In ThreadStart (flat_map relay chunks).
Proof.
  induction chunks as [|d chunks IH]; [intros []|].
  cbn. intros [H|[H|[H|H]]]; try discriminate. exact (IH H).
Qed.
End Loops.
End NetworkFacts.

Module NetworkProcess.
Import MCPNetworkBridge NetworkFacts.

Lemma split_unique (x : event) (l1 l2 l1' l2' : list event) :
  ~ In x l1 -> ~ In x l2 ->
  l1 ++ x :: l2 = l1' ++ x :: l2' ->
  l1 = l1' /\ l2 = l2'.
Proof.
  revert l1'. induction l1 as [|a l1 IH]; intros l1' H1 H2 E.
  - destruct l1' as [|b l1']; cbn in E.
    + injection E as ->. now split.
    + injection E as <- E. exfalso. apply H2. rewrite E.
      apply in_app_iff. right. now left.
  - destruct l1' as [|b l1']; cbn in E.
    + injection E as -> _. exfalso. apply H1. now left.
    + injection E as <- E.
      destruct (IH l1' (fun H => H1 (or_intror H)) H2 E) as [-> ->].
      now split.
Qed.

(** In the process, whatever the scheduling of the two threads: standard
    output receives the chunks of the socket, and the socket receives a
    prefix of the lines of standard input. *)
Lemma process_byte_pipe (env : Env) (host : pystr) (port : Z)
      (stdin : list bytes) (recvs : list recv_item) (t : list event) :
  socket_new env = None ->
  socket_connect env host port = None ->
  thread_start env = None ->
  observable (main env host port stdin recvs) t ->
  written_of t = chunks_before_end recvs
  /\ exists rest : list bytes, lines_before_eof stdin = sent_of t ++ rest.
Proof.
  intros H1 H2 H3 Hobs.
  destruct (main_events_connected env host port stdin recvs H1 H2 H3)
    as (tail & Hm & Hw & Hs & Hn & Ht).
  cbv zeta in *.
  set (p := main env host port stdin recvs) in *.
  assert (Hsock : socket {| socket := Some Sock; sends := 0 |} <> None)
    by discriminate.
  assert (Hwm : written_of
                  (flat_map relay (chunks_before_end recvs)
                   ++ Recv 4096 :: tail) = chunks_before_end recvs).
  { rewrite written_of_relays, written_of_cons, Hw. apply app_nil_r. }
  assert (Hsm : sent_of
                  (flat_map relay (chunks_before_end recvs)
                   ++ Recv 4096 :: tail) = []).
  { now rewrite sent_of_app, relays_no_sent, sent_of_cons, Hs. }
  destruct Hobs as [[_ ->]|(before & after & ran & rest & m
                              & Hb & Hr & Hi & ->)].
  - rewrite Hm. cbn [app]. rewrite !written_of_cons, !sent_of_cons.
    rewrite Hwm, Hsm. split; [reflexivity|].
    now exists (lines_before_eof stdin).
  - rewrite Hm in Hb.
    destruct (split_unique ThreadStart [SocketNew; Connect host port]
                (flat_map relay (chunks_before_end recvs)
                 ++ Recv 4096 :: tail) before after) as [<- <-].
    + intros [H|[H|[]]]; discriminate.
    + rewrite in_app_iff. intros [H|[H|H]];
        [exact (relays_no_start _ H) | discriminate | exact (Hn H)].
    + exact Hb.
    + rewrite Ht in Hr.
      cbn [app]. rewrite !written_of_cons, !sent_of_cons.
      rewrite (interleave_written _ _ _ Hi
                 (written_of_thread env stdin _ ran rest Hsock Hr)).
      rewrite (interleave_sent _ _ _ Hi Hsm), Hwm.
      split; [reflexivity|]. cbn [app].
      pose proof (forward_stdio_to_socket_sent env stdin _ Hsock) as Hsent.
      rewrite Hr, sent_of_app in Hsent. cbn [sends] in Hsent.
      destruct (attempted_prefix env stdin 0) as [rest' Hp].
      exists (sent_of rest ++ rest').
      now rewrite app_assoc, Hsent.
Qed.

End NetworkProcess.

Module NetworkClaims.
Import MCPNetworkBridge NetworkFacts Scenarios.

(** C5.  Each direction is a byte pipe.  With the socket connected:
    the lines given to [sendall] are, unmodified and in order, a prefix
    of the lines of standard input before its end; all of them when no
    write fails; and when some are missing the last write failed.  The
    chunks written to standard output are, unmodified and in order, the
    chunks the socket yields before it returns zero bytes or a read
    raises; each is read by a [recv] of 4096 bytes and followed by a
    flush, and after the last [recv] nothing more is written.  In the
    connected process this holds of every event sequence the two threads
    can show together. *)
Theorem byte_pipe (env : Env) (stdin : list bytes)
        (recvs : list recv_item) (w : World) :
  socket w <> None ->
  let sent := sent_of (Eff.trace_of (forward_stdio_to_socket env stdin w)) in
  let t := Eff.trace_of (forward_socket_to_stdio recvs w) in
  (exists rest : list bytes, lines_before_eof stdin = sent ++ rest)
  /\ ((forall (n : nat) (d : bytes), socket_sendall env n d = None) ->
      sent = lines_before_eof stdin)
  /\ (sent <> lines_before_eof stdin ->
      exists (before : list bytes) (last : bytes),
        sent = before ++ [last]
        /\ socket_sendall env (sends w + List.length before) last <> None)
  /\ written_of t = chunks_before_end recvs
  /\ (exists tail : list event,
         t = flat_map relay (chunks_before_end recvs) ++ Recv 4096 :: tail
         /\ written_of tail = [])
  /\ (exists rest : list recv_item,
         recvs = map Data (chunks_before_end recvs) ++ rest
         /\ match rest with
            | [] => True
            | Data d :: _ => d = []
            | RecvRaises _ :: _ => True
            end)
  /\ (forall (host : pystr) (port : Z) (seen : list event),
         socket_new env = None ->
         socket_connect env host port = None ->
         thread_start env = None ->
         observable (main env host port stdin recvs) seen ->
         written_of seen = chunks_before_end recvs
         /\ exists rest : list bytes,
              lines_before_eof stdin = sent_of seen ++ rest).
Proof.
  intros Hs sent t.
  assert (Hsent : sent = attempted env (sends w) stdin)
    by apply (forward_stdio_to_socket_sent env stdin w Hs).
  assert (Ht : exists tail : list event,
             t = flat_map relay (chunks_before_end recvs)
                 ++ Recv 4096 :: tail
             /\ written_of tail = []).
  { subst t. rewrite (forward_socket_to_stdio_spec recvs w Hs).
    destruct (recv_error recvs) as [e|]; [destruct (is_Exception e)|];
      eexists; split; reflexivity. }
  split; [|split; [|split; [|split; [|split; [|split]]]]].
  - rewrite Hsent. apply attempted_prefix.
  - intros Hok. rewrite Hsent. apply attempted_all.
    now apply send_error_none.
  - intros Hne. rewrite Hsent in *.
    destruct (send_error env (sends w) stdin) as [e|] eqn:He.
    + destruct (attempted_stops env stdin (sends w) e He)
        as (before & last & H1 & H2).
      exists before, last. split; [exact H1|]. now rewrite H2.
    + now rewrite (attempted_all env stdin (sends w) He) in Hne.
  - destruct Ht as (tail & -> & Htail).
    rewrite written_of_relays.
    change (written_of (Recv 4096 :: tail)) with (written_of tail).
    rewrite Htail. apply app_nil_r.
  - exact Ht.
  - destruct (chunks_before_end_spec recvs) as (rest & H1 & _ & H3).
    exists rest. split; [exact H1|].
    destruct rest as [|[d|e] rest']; [exact I | apply H3 | exact I].
  - intros host port seen H1 H2 H3 Hobs.
    exact (NetworkProcess.process_byte_pipe env host port stdin recvs seen
             H1 H2 H3 Hobs).
Qed.

Lemma byte_pipe_witness :
  let w := {| socket := Some Sock; sends := 0 |} in
  let stdin := [ping; pong; hello] in
  let recvs := [Data hello; Data pong; Data []; Data ping] in
  let seen := [SocketNew; Connect gateway_host 8080; ThreadStart;
               Recv 4096; Sendall ping; StdoutWrite hello; StdoutFlush;
               Sendall pong; Recv 4096; StdoutWrite pong; StdoutFlush;
               Recv 4096; SocketClose] in
  sent_of (Eff.trace_of (forward_stdio_to_socket peer_env stdin w)) = stdin
  /\ sent_of (Eff.trace_of (forward_stdio_to_socket broken_pipe_env stdin w))
     = [ping; pong]
  /\ (exists (before : list bytes) (last : bytes),
         [ping; pong] = before ++ [last]
         /\ socket_sendall broken_pipe_env (0 + List.length before) last
            <> None)
  /\ written_of (Eff.trace_of (forward_socket_to_stdio recvs w))
     = [hello; pong]
  /\ observable (main peer_env gateway_host 8080 stdin recvs) seen
  /\ written_of seen = [hello; pong]
  /\ exists rest : list bytes, lines_before_eof stdin = sent_of seen ++ rest.
Proof.
  intros w stdin recvs seen.
  assert (Hs : socket w <> None) by discriminate.
  assert (Hobs : observable (main peer_env gateway_host 8080 stdin recvs)
                            seen).
  { right.
    exists [SocketNew; Connect gateway_host 8080],
      [Recv 4096; StdoutWrite hello; StdoutFlush;
       Recv 4096; StdoutWrite pong; StdoutFlush; Recv 4096; SocketClose],
      [Sendall ping; Sendall pong], [Sendall hello],
      [Recv 4096; Sendall ping; StdoutWrite hello; StdoutFlush;
       Sendall pong; Recv 4096; StdoutWrite pong; StdoutFlush;
       Recv 4096; SocketClose].
    repeat split; try reflexivity.
    repeat constructor. }
  destruct (byte_pipe peer_env stdin recvs w Hs)
    as (_ & H2 & _ & H4 & _ & _ & H7).
  destruct (byte_pipe broken_pipe_env stdin recvs w Hs)
    as (_ & _ & H3 & _).
  split; [exact (H2 (fun _ _ => eq_refl))|].
  split; [reflexivity|].
  split; [apply H3; discriminate|].
  split; [exact H4|].
  split; [exact Hobs|].
  exact (H7 gateway_host 8080%Z seen eq_refl eq_refl eq_refl Hobs).
Defined.



End NetworkClaims.

(** ** Teardown, both modes *)

Module TeardownClaims.
Module A := MCPStreamingClient.
Module B := MCPNetworkBridge.
Import PyFacts Scenarios.






End TeardownClaims.

(** * Part III: further properties of the bridges *)

(** ** Mode A *)

Module StreamingMore.
Import MCPStreamingClient PyFacts StreamingFacts StreamingObs.

Section Lines.
Variable env : Env.
Variable self : client.

(** The events of one iteration, by kind. *)
Lemma handle_line_observed (line : pystr) (k : nat) :
  let t := Eff.trace_of (handle_line env self line {| posts := k |}) in
  posts_of t = map (post_args self) (parsed env line)
  /\ stderr_of t = line_stderr (classify env self k line)
  /\ well_flushed t = true.
Proof.
  unfold classify, parsed.
  destruct (is_empty (strip line)) eqn:Hb.
  - rewrite (handle_line_blank env self line _ Hb). now cbn.
  - destruct (json_loads env (strip line)) as [request|e] eqn:Hl.
    + rewrite (handle_line_request env self line request k Hb Hl).
      destruct (exchange env self k request) as [v|e].
      * destruct (truthy v); now cbn.
      * destruct (is_Exception e); now cbn.
    + destruct (is_JSONDecodeError e) eqn:He.
      * rewrite (handle_line_malformed env self line e _ Hb Hl He). now cbn.
      * rewrite (handle_line_loads_raises env self line e _ Hb Hl He).
        now cbn.
Qed.

Lemma posts_of_concat (t1 t2 : list event) :
  posts_of (t1 ++ t2) = posts_of t1 ++ posts_of t2.
Proof. unfold posts_of. apply flat_map_app. Qed.

Lemma stderr_of_concat (t1 t2 : list event) :
  stderr_of (t1 ++ t2) = stderr_of t1 ++ stderr_of t2.
Proof. unfold stderr_of. apply flat_map_app. Qed.

Lemma well_flushed_app (t1 t2 : list event) :
  well_flushed t1 = true ->
  well_flushed (t1 ++ t2) = well_flushed t2.
Proof.
  remember (List.length t1) as n eqn:Hn.
  revert t1 Hn. induction n as [n IH] using lt_wf_ind.
  intros t1 Hn H. destruct t1 as [|ev t1]; [reflexivity|].
  destruct ev; cbn [well_flushed app] in *; try discriminate.
  - destruct t1 as [|ev' t1]; [discriminate|].
    destruct ev'; try discriminate. cbn [app].
    apply (IH (List.length t1)); [subst n; cbn; lia | reflexivity | exact H].
  - apply (IH (List.length t1)); [subst n; cbn; lia | reflexivity | exact H].
  - apply (IH (List.length t1)); [subst n; cbn; lia | reflexivity | exact H].
  - apply (IH (List.length t1)); [subst n; cbn; lia | reflexivity | exact H].
Qed.

Lemma well_flushed_line (line : pystr) (w : World) :
  well_flushed (Eff.trace_of (handle_line env self line w)) = true.
Proof. destruct w as [k]. apply (handle_line_observed line k). Qed.

Lemma for_stdin_well_flushed (stdin : list stdin_item) :
  forall w : World,
    well_flushed (Eff.trace_of (for_stdin env self stdin w)) = true.
Proof.
  induction stdin as [|[line|e] rest IH]; intros w; try reflexivity.
  rewrite for_stdin_line. cbv zeta.
  pose proof (well_flushed_line line w) as Hh.
  destruct (handle_line env self line w) as [[t w1] [[]|e]];
    unfold Eff.trace_of, Eff.result_of, Eff.world_of in *;
    cbn [fst snd] in *; [|exact Hh].
  rewrite (well_flushed_app _ _ Hh). apply IH.
Qed.

(** The POSTs and the diagnostics of a run over lines. *)
Lemma for_lines_observed (lines : list pystr) :
  forall k : nat,
    let out := for_stdin env self (map Line lines) {| posts := k |} in
    (exists rest : list Request,
        map (post_args self) (requests_of env lines)
        = posts_of (Eff.trace_of out) ++ rest)
    /\ (forallb (fun c => negb (is_escaped c)) (classes env self k lines)
        = true ->
        posts_of (Eff.trace_of out)
        = map (post_args self) (requests_of env lines)
        /\ stderr_of (Eff.trace_of out)
           = flat_map line_stderr (classes env self k lines)).
Proof.
  induction lines as [|line rest IH]; intros k.
  - split; [now exists []|]. now split.
  - change (map Line (line :: rest)) with (Line line :: map Line rest).
    change (classes env self k (line :: rest))
      with (classify env self k line
              :: classes env self (posts_after env k line) rest).
    change (requests_of env (line :: rest))
      with (parsed env line ++ requests_of env rest).
    cbn [forallb flat_map]. cbv zeta. rewrite for_stdin_line. cbv zeta.
    destruct (handle_line_observed line k) as (Hp & He & _).
    destruct (handle_line_classified env self line k) as (_ & Hw & Hr).
    cbv zeta in *. rewrite Hr, Hw.
    destruct (IH (posts_after env k line)) as [[more Hmore] Hall].
    cbv zeta in *. rewrite map_app.
    destruct (classify env self k line) eqn:Hc;
      unfold Eff.trace_of, Eff.result_of in *; cbn [fst snd negb andb] in *;
      try (split;
           [ exists more; rewrite posts_of_concat, Hp, Hmore;
             now rewrite app_assoc
           | intros Hq; destruct (Hall Hq) as [H1 H2];
             now rewrite posts_of_concat, stderr_of_concat, Hp, He, H1, H2 ]).
    split; [|discriminate].
    exists (map (post_args self) (requests_of env rest)). now rewrite Hp.
Qed.
End Lines.

(** X1.  [forward_request] makes exactly one POST, writes nothing to
    standard output and lets no [Exception] escape: when the POST,
    [raise_for_status] or [response.json] raises one, it returns [None]
    after one [Request error] diagnostic; otherwise it returns the decoded
    body without a diagnostic.  Only an exception outside [Exception]
    (an interrupt) leaves it. *)
Theorem forward_request_contains_errors (env : Env) (self : client)
        (request : pyvalue) (k : nat) :
  let out := forward_request env self request {| posts := k |} in
  let t := Eff.trace_of out in
  posts_of t = [post_args self request]
  /\ Eff.world_of out = {| posts := S k |}
  /\ stdout_of t = []
  /\ match Eff.result_of out with
     | inl v =>
         (exchange env self k request = inl v /\ stderr_of t = [])
         \/ (exists e : exn,
                exchange env self k request = inr e
                /\ is_Exception e = true
                /\ v = PyNone
                /\ stderr_of t
                   = [py "Request error: " ++ msg e ++ [newline]])
     | inr e =>
         exchange env self k request = inr e
         /\ is_Exception e = false
         /\ stderr_of t = []
     end.
Proof.
  cbv zeta. rewrite forward_request_spec.
  destruct (exchange env self k request) as [v|e] eqn:Hx.
  - cbn. repeat split. now left.
  - destruct (is_Exception e) eqn:He; cbn; repeat split; try assumption.
    right. exists e. now repeat split.
Qed.

(** X2.  An HTTP error status is a request error whatever the body: a
    response with a status from 400 to 599 makes the line write the
    [Request error] diagnostic of the [HTTPError] and nothing to standard
    output, even when its body is valid JSON, and the loop goes on. *)
Theorem http_error_status_not_forwarded (env : Env) (self : client)
        (line : pystr) (request : pyvalue) (k : nat) (r : Response) :
  is_empty (strip line) = false ->
  json_loads env (strip line) = inl request ->
  remote env k (post_args self request) = Responds r ->
  (400 <= status_code r < 600)%Z ->
  exists m : pystr,
    http_error_msg r = Some m
    /\ handle_line env self line {| posts := k |}
       = ([Post (post_args self request);
           Stderr (py "Request error: " ++ m ++ [newline])],
          {| posts := S k |}, inl tt).
Proof.
  intros Hb Hl Hr Hs.
  assert (Hm : exists m : pystr, http_error_msg r = Some m).
  { unfold http_error_msg.
    destruct ((400 <=? status_code r) && (status_code r <? 500))%Z eqn:E1;
      [eexists; reflexivity|].
    destruct ((500 <=? status_code r) && (status_code r <? 600))%Z eqn:E2;
      [eexists; reflexivity|].
    exfalso.
    apply andb_false_iff in E1. apply andb_false_iff in E2.
    rewrite !Z.leb_gt, !Z.ltb_ge in *. lia. }
  destruct Hm as [m Hm]. exists m. split; [exact Hm|].
  rewrite (handle_line_request env self line request k Hb Hl).
  unfold exchange. now rewrite Hr, Hm.
Qed.

Lemma http_error_status_not_forwarded_witness :
  exists m : pystr,
    handle_line MoreScenarios.server_error_env (init Scenarios.gateway)
                Scenarios.search_line {| posts := 0 |}
    = ([Post (post_args (init Scenarios.gateway) Scenarios.search_request);
        Stderr (py "Request error: " ++ m ++ [newline])],
       {| posts := 1 |}, inl tt).
Proof.
  assert (Hs : (400 <= 500 < 600)%Z) by lia.
  destruct (http_error_status_not_forwarded
              MoreScenarios.server_error_env (init Scenarios.gateway)
              Scenarios.search_line Scenarios.search_request 0
              {| status_code := 500;
                 reason := py "Internal Server Error";
                 response_url := Scenarios.gateway ++ py "/mcp";
                 text := Scenarios.echo_body |}
              eq_refl eq_refl eq_refl Hs) as (m & _ & H).
  exists m. exact H.
Defined.

(** X3.  No retry, no reordering: the POSTs of a run are the requests of
    the non-blank lines that decode, each once, in the order of the
    lines; when an exception escapes the loop they are a prefix of
    them. *)
Theorem requests_forwarded_once_in_order (env : Env) (url : pystr)
        (lines : list pystr) :
  let self := init url in
  let t := fst (main env url (map Line lines)) in
  (exists rest : list Request,
      map (post_args self) (requests_of env lines) = posts_of t ++ rest)
  /\ (forallb (fun c => negb (is_escaped c)) (classes env self 0 lines)
      = true ->
      posts_of t = map (post_args self) (requests_of env lines)).
Proof.
  cbv zeta. unfold main. cbn [fst]. rewrite run_spec. cbv zeta.
  unfold Eff.trace_of at 1 3. cbn [fst].
  rewrite posts_of_concat. cbn [posts_of flat_map]. rewrite app_nil_r.
  destruct (for_lines_observed env (init url) lines 0) as [Hpre Hall].
  split; [exact Hpre|]. intros Hq. now destruct (Hall Hq).
Qed.

Lemma requests_forwarded_once_in_order_witness :
  let lines := [Scenarios.search_line; Scenarios.blank_line;
                Scenarios.malformed_line; Scenarios.search_line] in
  let self := init Scenarios.gateway in
  let t := fst (main Scenarios.flaky_env Scenarios.gateway
                     (map Line lines)) in
  posts_of t = [post_args self Scenarios.search_request;
                post_args self Scenarios.search_request]
  /\ posts_of t = map (post_args self)
                      (requests_of Scenarios.flaky_env lines).
Proof.
  intros lines self t. split; [vm_compute; reflexivity|].
  apply (proj2 (requests_forwarded_once_in_order
                  Scenarios.flaky_env Scenarios.gateway lines)).
  vm_compute. reflexivity.
Defined.

(** X4.  Standard output carries protocol data only, line by line: in
    every run, each write to standard output is the serialization of a
    truthy response followed by a newline, is followed at once by a
    flush, and, with a [float.__repr__] that prints ASCII, is exactly one
    line. *)
Theorem stdout_discipline (env : Env) (url : pystr)
        (stdin : list stdin_item) :
  let t := fst (main env url stdin) in
  well_flushed t = true
  /\ (forall chunk : pystr,
         In chunk (stdout_of t) ->
         exists v : pyvalue,
           chunk = json_dumps env v ++ [newline] /\ truthy v = true)
  /\ ((forall f : spec_float,
          forallb Json.printable (float_repr env f) = true) ->
      Forall Json.one_line (stdout_of t)).
Proof.
  cbv zeta. unfold main. cbn [fst]. split; [|split].
  - rewrite run_spec. cbv zeta. unfold Eff.trace_of at 1. cbn [fst].
    rewrite (well_flushed_app _ _ (for_stdin_well_flushed env (init url)
                                     stdin _)).
    reflexivity.
  - intros chunk Hc. rewrite run_spec in Hc. cbv zeta in Hc.
    unfold Eff.trace_of at 1 in Hc. cbn [fst] in Hc.
    rewrite stdout_of_app, in_app_iff in Hc. destruct Hc as [Hc|[]].
    exact (for_stdin_stdout_form env (init url) stdin chunk _ Hc).
  - intros Hf. exact (stdout_chunks_are_lines env (init url) stdin _ Hf).
Qed.

Lemma stdout_discipline_witness :
  let t := fst (main Scenarios.echo_env Scenarios.gateway
                     [Line Scenarios.search_line;
                      Line Scenarios.malformed_line;
                      Line Scenarios.search_line]) in
  well_flushed t = true
  /\ List.length (stdout_of t) = 2
  /\ Forall Json.one_line (stdout_of t).
Proof.
  intros t. split; [vm_compute; reflexivity|].
  split; [vm_compute; reflexivity|].
  apply (proj2 (proj2 (stdout_discipline Scenarios.echo_env
                         Scenarios.gateway _))).
  intros [[|]|[|]| |s m e]; reflexivity.
Defined.

(** X5.  Diagnostics: over input lines none of which lets an exception
    escape the loop, the error channel carries one diagnostic per
    malformed line and per failed request, in the order of the lines, and
    nothing else: a blank line and a dropped falsy response are
    silent. *)
Theorem one_diagnostic_per_failure (env : Env) (url : pystr)
        (lines : list pystr) :
  let cs := classes env (init url) 0 lines in
  let t := fst (main env url (map Line lines)) in
  forallb (fun c => negb (is_escaped c)) cs = true ->
  stderr_of t = flat_map line_stderr cs
  /\ List.length (stderr_of t)
     = count is_malformed cs + count is_failed cs.
Proof.
  intros cs t Hq.
  assert (H : stderr_of t = flat_map line_stderr cs).
  { subst t. unfold main. cbn [fst]. rewrite run_spec. cbv zeta.
    unfold Eff.trace_of at 1. cbn [fst].
    rewrite stderr_of_concat. cbn [stderr_of flat_map]. rewrite app_nil_r.
    destruct (for_lines_observed env (init url) lines 0) as [_ Hall].
    now destruct (Hall Hq). }
  split; [exact H|]. rewrite H. clear. unfold count.
  induction cs as [|c cs IH]; [reflexivity|].
  destruct c; cbn [flat_map line_stderr filter is_malformed is_failed app
                   List.length] in *; lia.
Qed.

Lemma one_diagnostic_per_failure_witness :
  let lines := [Scenarios.search_line; Scenarios.blank_line;
                Scenarios.search_line; Scenarios.malformed_line] in
  let cs := classes Scenarios.flaky_env (init Scenarios.gateway) 0 lines in
  let t := fst (main Scenarios.flaky_env Scenarios.gateway
                     (map Line lines)) in
  forallb (fun c => negb (is_escaped c)) cs = true
  /\ stderr_of t = flat_map line_stderr cs
  /\ List.length (stderr_of t) = 1 + 1.
Proof.
  intros lines cs t.
  assert (Hq : forallb (fun c => negb (is_escaped c)) cs = true)
    by (vm_compute; reflexivity).
  destruct (one_diagnostic_per_failure Scenarios.flaky_env
              Scenarios.gateway lines Hq) as [H1 H2].
  exact (conj Hq (conj H1 H2)).
Defined.

Lemma for_stdin_read_raises (env : Env) (self : client)
      (s1 s2 : list stdin_item) (e : exn) :
  forall w : World,
    for_stdin env self (s1 ++ ReadRaises e :: s2) w
    = for_stdin env self (s1 ++ [ReadRaises e]) w.
Proof.
  induction s1 as [|[line|e'] s1 IH]; intros w; try reflexivity.
  change ((Line line :: s1) ++ ReadRaises e :: s2)
    with (Line line :: (s1 ++ ReadRaises e :: s2)).
  change ((Line line :: s1) ++ [ReadRaises e])
    with (Line line :: (s1 ++ [ReadRaises e])).
  rewrite (for_stdin_line env self line (s1 ++ ReadRaises e :: s2) w).
  rewrite (for_stdin_line env self line (s1 ++ [ReadRaises e]) w).
  cbv zeta. destruct (Eff.result_of (handle_line env self line w));
    [|reflexivity].
  now rewrite IH.
Qed.

(** X6.  An exception raised while the loop waits for a line ends the
    run: whatever standard input would have yielded afterwards is never
    read.  After lines none of which lets an exception escape, an
    interrupt gives exit status 0 and any other exception its own
    status, 1 for an [Exception]. *)
Theorem input_after_read_exception_unread (env : Env) (url : pystr)
        (s1 s2 : list stdin_item) (lines : list pystr) (e : exn) :
  main env url (s1 ++ ReadRaises e :: s2)
  = main env url (s1 ++ [ReadRaises e])
  /\ (forallb (fun c => negb (is_escaped c))
              (classes env (init url) 0 lines) = true ->
      main env url (map Line lines ++ ReadRaises e :: s2)
      = (fst (main env url (map Line lines)),
         if is_KeyboardInterrupt e then 0%Z
         else exit_status (@inr unit exn e))).
Proof.
  split.
  - unfold main, run, Eff.try_finally, Eff.try_except.
    now rewrite for_stdin_read_raises.
  - intros Hq. unfold main. rewrite !run_spec. cbv zeta.
    destruct (for_lines_stdout env (init url) lines 0 Hq) as [_ Hr].
    cbv zeta in Hr.
    rewrite (for_stdin_app env (init url) (map Line lines)
               (ReadRaises e :: s2) _ Hr).
    cbv zeta. unfold Eff.trace_of, Eff.result_of, Eff.world_of in *.
    destruct (for_stdin env (init url) (map Line lines) {| posts := 0 |})
      as [[t w1] r].
    cbn [fst snd] in *. subst r. cbn. rewrite app_nil_r.
    now destruct (is_KeyboardInterrupt e).
Qed.

Lemma input_after_read_exception_unread_witness :
  let interrupt := Exn KeyboardInterrupt [] in
  let lines := [Scenarios.search_line] in
  main Scenarios.echo_env Scenarios.gateway
       (map Line lines ++ ReadRaises interrupt :: [Line Scenarios.search_line])
  = (fst (main Scenarios.echo_env Scenarios.gateway (map Line lines)), 0%Z).
Proof.
  intros interrupt lines.
  apply (proj2 (input_after_read_exception_unread
                  Scenarios.echo_env Scenarios.gateway []
                  [Line Scenarios.search_line] lines interrupt)).
  vm_compute. reflexivity.
Defined.

(** X7.  The loop catches decode errors only.  When [json.loads] raises,
    on a non-blank line, an exception that is neither a
    [JSONDecodeError] nor an interrupt, the run ends there: no
    diagnostic, the lines after it unread, the session closed, and the
    process has the events of the run over the lines before it and the
    exit status of the exception, 1 for an [Exception]. *)
Theorem other_decode_exception_ends_run (env : Env) (url : pystr)
        (before : list pystr) (line : pystr) (e : exn)
        (rest : list stdin_item) :
  forallb (fun c => negb (is_escaped c))
          (classes env (init url) 0 before) = true ->
  is_empty (strip line) = false ->
  json_loads env (strip line) = inr e ->
  is_JSONDecodeError e = false ->
  is_KeyboardInterrupt e = false ->
  main env url (map Line before ++ Line line :: rest)
  = (fst (main env url (map Line before)), exit_status (@inr unit exn e))
  /\ (is_Exception e = true -> exit_status (@inr unit exn e) = 1%Z).
Proof.
  intros Hq Hb Hl Hj Hk. split.
  - unfold main. rewrite !run_spec. cbv zeta.
    destruct (for_lines_stdout env (init url) before 0 Hq) as [_ Hr].
    cbv zeta in Hr.
    rewrite (for_stdin_app env (init url) (map Line before)
               (Line line :: rest) _ Hr).
    cbv zeta. rewrite for_stdin_line. cbv zeta.
    rewrite (handle_line_loads_raises env (init url) line e _ Hb Hl Hj).
    unfold Eff.trace_of, Eff.result_of, Eff.world_of in *.
    destruct (for_stdin env (init url) (map Line before) {| posts := 0 |})
      as [[t w1] r].
    cbn [fst snd] in *. subst r. cbn. now rewrite app_nil_r, Hk.
  - unfold is_Exception, exit_status. cbn. now destruct (cls e).
Qed.

Lemma other_decode_exception_ends_run_witness :
  let before := [Scenarios.search_line] in
  let rest := [Line Scenarios.search_line] in
  main MoreScenarios.recursion_env Scenarios.gateway
       (map Line before ++ Line MoreScenarios.deep_line :: rest)
  = (fst (main MoreScenarios.recursion_env Scenarios.gateway
               (map Line before)), 1%Z).
Proof.
  intros before rest.
  assert (Hq : forallb (fun c => negb (is_escaped c))
                 (classes MoreScenarios.recursion_env
                          (init Scenarios.gateway) 0 before) = true)
    by (vm_compute; reflexivity).
  assert (Hb : is_empty (strip MoreScenarios.deep_line) = false)
    by (vm_compute; reflexivity).
  assert (Hl : json_loads MoreScenarios.recursion_env
                          (strip MoreScenarios.deep_line)
               = inr MoreScenarios.recursion_error)
    by (vm_compute; reflexivity).
  exact (proj1 (other_decode_exception_ends_run
                  MoreScenarios.recursion_env Scenarios.gateway before
                  MoreScenarios.deep_line MoreScenarios.recursion_error
                  rest Hq Hb Hl eq_refl eq_refl)).
Defined.

(** *** White space around a line, slashes after a URL *)

Lemma dropwhile_app_some (p : N -> bool) (s t : pystr) :
  forallb p s = false -> dropwhile p (s ++ t) = dropwhile p s ++ t.
Proof.
  induction s as [|c s IH]; [discriminate|]. cbn [forallb dropwhile app].
  destruct (p c); [exact IH | reflexivity].
Qed.

Lemma rstrip_app_spaces (s b : pystr) :
  forallb is_space b = true -> rstrip (s ++ b) = rstrip s.
Proof.
  intros Hb. unfold rstrip. rewrite rev_app_distr.
  rewrite dropwhile_app_all; [reflexivity|].
  apply forallb_forall. intros x Hx. apply in_rev in Hx.
  rewrite forallb_forall in Hb. now apply Hb.
Qed.

Lemma strip_surrounded (a s b : pystr) :
  forallb is_space a = true ->
  forallb is_space b = true ->
  strip (a ++ s ++ b) = strip s.
Proof.
  intros Ha Hb. unfold strip, lstrip.
  rewrite (dropwhile_app_all is_space a (s ++ b) Ha).
  destruct (forallb is_space s) eqn:Hs.
  - rewrite (dropwhile_app_all is_space s b Hs).
    now rewrite (dropwhile_all is_space b Hb), (dropwhile_all is_space s Hs).
  - rewrite (dropwhile_app_some is_space s b Hs).
    now apply rstrip_app_spaces.
Qed.

(** X8.  White space around an input line is irrelevant: a line
    surrounded by any white space (the newline that ends it included) is
    handled exactly as the line itself. *)
Theorem surrounding_whitespace_ignored (env : Env) (self : client)
        (a line b : pystr) (w : World) :
  forallb is_space a = true ->
  forallb is_space b = true ->
  handle_line env self (a ++ line ++ b) w = handle_line env self line w.
Proof.
  intros Ha Hb. unfold handle_line.
  now rewrite (strip_surrounded a line b Ha Hb).
Qed.

Lemma surrounding_whitespace_ignored_witness :
  let a := [32; 9; 160]%N in
  let b := [13; 10]%N in
  let line := pyq "{'id': 1}" in
  handle_line Scenarios.echo_env (init Scenarios.gateway) (a ++ line ++ b)
              {| posts := 0 |}
  = handle_line Scenarios.echo_env (init Scenarios.gateway) line
                {| posts := 0 |}.
Proof.
  intros a b line.
  apply (surrounding_whitespace_ignored Scenarios.echo_env
           (init Scenarios.gateway) a line b {| posts := 0 |});
    reflexivity.
Defined.

(** X9.  The base URL of a client is the given URL without its trailing
    slashes, and nothing else is removed: the given URL is the base URL
    followed by slashes only, the base URL does not end with a slash, and
    a URL that does not end with a slash is kept as it is. *)
Theorem base_url_without_trailing_slash (u : pystr) :
  (exists k : nat, u = base_url (init u) ++ repeat 47%N k)
  /\ not_ending_with 47%N (base_url (init u))
  /\ (not_ending_with 47%N u -> base_url (init u) = u).
Proof.
  unfold init, rstrip_chars. cbn [base_url].
  destruct (dropwhile_split (fun c => mem c (py "/")) (rev u))
    as (pre & H1 & H2 & H3).
  assert (Hu : u = rev (dropwhile (fun c => mem c (py "/")) (rev u))
                   ++ repeat 47%N (List.length pre)).
  { rewrite <- (rev_involutive u) at 1. rewrite H1 at 1.
    rewrite rev_app_distr. f_equal.
    rewrite (all_slashes pre H2) at 1. apply rev_repeat. }
  assert (Hn : not_ending_with
                 47%N (rev (dropwhile (fun c => mem c (py "/")) (rev u)))).
  { intros s' E.
    destruct (dropwhile (fun c => mem c (py "/")) (rev u)) as [|c d];
      [now destruct s'|].
    apply (f_equal (@rev N)) in E.
    rewrite rev_involutive, rev_app_distr in E. cbn in E.
    injection E as -> _. discriminate. }
  split; [now exists (List.length pre)|]. split; [exact Hn|].
  intros Hne. destruct (List.length pre) as [|k].
  - cbn in Hu. now rewrite app_nil_r in Hu.
  - exfalso.
    apply (Hne (rev (dropwhile (fun c => mem c (py "/")) (rev u))
                ++ repeat 47%N k)).
    rewrite Hu at 1. rewrite <- app_assoc. f_equal.
    clear. induction k as [|k IH]; [reflexivity|].
    cbn [repeat app] in *. now rewrite <- IH.
Qed.

Lemma base_url_without_trailing_slash_witness :
  base_url (init (py "http://gateway:8080")) = py "http://gateway:8080"
  /\ base_url (init (py "http://gateway:8080///")) = py "http://gateway:8080".
Proof.
  split; [|reflexivity].
  apply (proj2 (proj2 (base_url_without_trailing_slash
                         (py "http://gateway:8080")))).
  intros s' E. apply (f_equal (@rev N)) in E.
  rewrite rev_app_distr in E. vm_compute in E. discriminate.
Defined.

(** X10.  The bridge works line by line, without looking ahead: the
    events of a run over the beginning of the input, up to the close of
    the session, are the beginning of the events of the run over the
    whole input; what is answered to a line does not depend on the input
    after it. *)
Theorem run_is_incremental (env : Env) (url : pystr)
        (s1 s2 : list stdin_item) :
  exists (body more : list event),
    fst (main env url s1) = body ++ [SessionClose]
    /\ fst (main env url (s1 ++ s2)) = body ++ more ++ [SessionClose].
Proof.
  unfold main. cbn [fst]. rewrite !run_spec. cbv zeta.
  unfold Eff.trace_of at 1 3. cbn [fst].
  generalize {| posts := 0 |}. induction s1 as [|[line|e] s1 IH]; intros w.
  - exists [], (Eff.trace_of (for_stdin env (init url) s2 w)).
    now split.
  - change ((Line line :: s1) ++ s2) with (Line line :: (s1 ++ s2)).
    rewrite (for_stdin_line env (init url) line s1 w).
    rewrite (for_stdin_line env (init url) line (s1 ++ s2) w). cbv zeta.
    destruct (handle_line env (init url) line w) as [[t w1] [[]|e]];
      unfold Eff.trace_of, Eff.result_of, Eff.world_of in *;
      cbn [fst snd] in *.
    + destruct (IH w1) as (body & more & H1 & H2).
      exists (t ++ body), more. rewrite <- !app_assoc.
      split; [now rewrite H1 | now rewrite H2].
    + exists t, []. now split.
  - exists [], []. now split.
Qed.

Lemma for_lines_world (env : Env) (self : client) (lines : list pystr) :
  forall k : nat,
    forallb (fun c => negb (is_escaped c)) (classes env self k lines)
    = true ->
    Eff.world_of (for_stdin env self (map Line lines) {| posts := k |})
    = {| posts := k + List.length (requests_of env lines) |}.
Proof.
  induction lines as [|line rest IH]; intros k Hq.
  - cbn. now rewrite Nat.add_0_r.
  - change (map Line (line :: rest)) with (Line line :: map Line rest).
    change (classes env self k (line :: rest))
      with (classify env self k line
              :: classes env self (posts_after env k line) rest) in Hq.
    change (requests_of env (line :: rest))
      with (parsed env line ++ requests_of env rest).
    cbn [forallb] in Hq. apply andb_true_iff in Hq as [Hc Hrest].
    rewrite for_stdin_line. cbv zeta.
    destruct (handle_line_classified env self line k) as (_ & Hw & Hr).
    cbv zeta in *. rewrite Hr, Hw.
    assert (Hk : posts_after env k line
                 = k + List.length (parsed env line)).
    { unfold posts_after, parsed.
      destruct (is_empty (strip line)); [cbn; lia|].
      destruct (json_loads env (strip line)); cbn; lia. }
    destruct (classify env self k line); try discriminate;
      unfold Eff.world_of at 1; cbn [fst snd];
      rewrite (IH _ Hrest), Hk, length_app; f_equal; lia.
Qed.

(** X16.  An interrupt during a request is not a request error: when the
    POST is interrupted, [forward_request] writes no diagnostic, the run
    ends with the session closed and exit status 0, and the lines after
    it are never read. *)
Theorem interrupted_request_ends_run (env : Env) (url : pystr)
        (before : list pystr) (line : pystr) (request : pyvalue)
        (e : exn) (rest : list stdin_item) :
  forallb (fun c => negb (is_escaped c))
          (classes env (init url) 0 before) = true ->
  is_empty (strip line) = false ->
  json_loads env (strip line) = inl request ->
  remote env (List.length (requests_of env before))
         (post_args (init url) request) = Raises e ->
  is_KeyboardInterrupt e = true ->
  exists body : list event,
    fst (main env url (map Line before)) = body ++ [SessionClose]
    /\ main env url (map Line before ++ Line line :: rest)
       = (body ++ [Post (post_args (init url) request); SessionClose],
          0%Z).
Proof.
  intros Hq Hb Hl Hr Hk.
  assert (He : is_Exception e = false).
  { unfold is_KeyboardInterrupt, is_Exception in *. now destruct (cls e). }
  unfold main. rewrite !run_spec. cbv zeta.
  destruct (for_lines_stdout env (init url) before 0 Hq) as [_ Hres].
  pose proof (for_lines_world env (init url) before 0 Hq) as Hw.
  cbv zeta in Hres.
  rewrite (for_stdin_app env (init url) (map Line before)
             (Line line :: rest) _ Hres).
  cbv zeta. rewrite for_stdin_line. cbv zeta. rewrite Hw. cbn [Nat.add].
  rewrite (handle_line_request env (init url) line request _ Hb Hl).
  unfold exchange. rewrite Hr, He.
  unfold Eff.trace_of, Eff.result_of, Eff.world_of in *.
  destruct (for_stdin env (init url) (map Line before) {| posts := 0 |})
    as [[t w1] r].
  cbn [fst snd] in *. subst r. exists t. split; [reflexivity|].
  cbn. rewrite Hk, <- app_assoc. reflexivity.
Qed.

Lemma interrupted_request_ends_run_witness :
  let interrupt := Exn KeyboardInterrupt [] in
  let env := Scenarios.stub_env
               (fun n _ => if Nat.eqb n 1 then Raises interrupt
                           else Responds
                                  (Scenarios.ok_response
                                     Scenarios.echo_body)) in
  let before := [Scenarios.search_line] in
  exists body : list event,
    fst (main env Scenarios.gateway (map Line before))
    = body ++ [SessionClose]
    /\ main env Scenarios.gateway
            (map Line before
             ++ Line Scenarios.search_line :: [Line Scenarios.search_line])
       = (body ++ [Post (post_args (init Scenarios.gateway)
                                   Scenarios.search_request);
                   SessionClose], 0%Z).
Proof.
  intros interrupt env before.
  assert (Hq : forallb (fun c => negb (is_escaped c))
                 (classes env (init Scenarios.gateway) 0 before) = true)
    by (vm_compute; reflexivity).
  exact (interrupted_request_ends_run env Scenarios.gateway before
           Scenarios.search_line Scenarios.search_request interrupt
           [Line Scenarios.search_line] Hq eq_refl eq_refl eq_refl eq_refl).
Defined.
End StreamingMore.

(** ** Mode B *)

Module NetworkMore.
Import MCPNetworkBridge NetworkFacts.

(** X11.  [connect] reports the outcome instead of raising.  It returns
    [True] exactly when the socket was created and connected, and then
    its only events are the creation and the connection.  When the
    creation or the connection raises an exception [e] of class
    [Exception] it returns [False] after one [Connection failed]
    diagnostic that carries the message of [e]; when [e] is outside
    [Exception] that same [e] leaves [connect], without a diagnostic.
    It never returns [False], and nothing leaves it, unless the creation
    or the connection raised.  Once the socket is created it stays in
    [self.socket], connected or not; when the creation fails the bridge
    is as before. *)
Theorem connect_reports_outcome (env : Env) (self : bridge) (w : World) :
  let out := connect env self w in
  let t := Eff.trace_of out in
  let w' := {| socket := Some Sock; sends := sends w |} in
  let tried := [SocketNew; Connect (host self) (port self)] in
  let diag := fun e : exn =>
                Stderr (py "Connection failed: " ++ msg e ++ [newline]) in
  let raised := fun e : exn =>
                  socket_new env = Some e
                  \/ (socket_new env = None
                      /\ socket_connect env (host self) (port self)
                         = Some e) in
  (Eff.result_of out = inl true <->
   socket_new env = None
   /\ socket_connect env (host self) (port self) = None)
  /\ (socket_new env = None ->
      socket_connect env (host self) (port self) = None ->
      out = (tried, w', inl true))
  /\ (forall e : exn,
         socket_new env = Some e ->
         out = if is_Exception e then ([diag e], w, inl false)
               else ([], w, inr e))
  /\ (forall e : exn,
         socket_new env = None ->
         socket_connect env (host self) (port self) = Some e ->
         out = if is_Exception e then (tried ++ [diag e], w', inl false)
               else (tried, w', inr e))
  /\ (Eff.result_of out = inl false ->
      exists e : exn,
        raised e /\ is_Exception e = true
        /\ stderr_of t = [py "Connection failed: " ++ msg e ++ [newline]])
  /\ (forall e : exn,
         Eff.result_of out = inr e ->
         raised e /\ is_Exception e = false /\ stderr_of t = [])
  /\ (socket_new env = None -> socket (Eff.world_of out) = Some Sock)
  /\ (socket_new env <> None -> Eff.world_of out = w).
Proof.
  cbv zeta. rewrite connect_spec.
  destruct (socket_new env) as [e|] eqn:Hn.
  - split; [|split; [|split; [|split; [|split; [|split; [|split]]]]]].
    + destruct (is_Exception e); cbn;
        (split; [discriminate | intros [H _]; discriminate]).
    + discriminate.
    + intros e' [= <-]. reflexivity.
    + discriminate.
    + destruct (is_Exception e) eqn:He; cbn; [|discriminate].
      intros _. exists e. repeat split; auto.
    + intros e'. destruct (is_Exception e) eqn:He; cbn; [discriminate|].
      intros [= <-]. repeat split; auto.
    + discriminate.
    + intros _. now destruct (is_Exception e).
  - cbv zeta.
    destruct (socket_connect env (host self) (port self)) as [e|] eqn:Hc.
    + split; [|split; [|split; [|split; [|split; [|split; [|split]]]]]].
      * destruct (is_Exception e); cbn;
          (split; [discriminate | intros [_ H]; discriminate]).
      * discriminate.
      * discriminate.
      * intros e' _ [= <-]. reflexivity.
      * destruct (is_Exception e) eqn:He; cbn; [|discriminate].
        intros _. exists e. repeat split; auto.
      * intros e'. destruct (is_Exception e) eqn:He; cbn; [discriminate|].
        intros [= <-]. repeat split; auto.
      * intros _. now destruct (is_Exception e).
      * intros H. now destruct H.
    + split; [|split; [|split; [|split; [|split; [|split; [|split]]]]]].
      * cbn. split; [now intros _ | reflexivity].
      * reflexivity.
      * discriminate.
      * discriminate.
      * discriminate.
      * discriminate.
      * reflexivity.
      * intros H. now destruct H.
Qed.

Lemma connect_reports_outcome_witness :
  let w := {| socket := None; sends := 0 |} in
  let w' := {| socket := Some Sock; sends := 0 |} in
  let self := {| host := Scenarios.gateway_host; port := 8080 |} in
  let tried := [SocketNew; Connect Scenarios.gateway_host 8080] in
  let full := Exn OSError (py "[Errno 24] Too many open files") in
  let interrupt := Exn KeyboardInterrupt [] in
  let interrupted :=
    {| socket_new := None;
       socket_connect := fun _ _ => Some interrupt;
       socket_sendall := fun _ _ => None;
       thread_start := None;
       thread_reading_at_exit := false |} in
  connect Scenarios.peer_env self w = (tried, w', inl true)
  /\ connect Scenarios.refusing_env self w
     = (tried
        ++ [Stderr (py "Connection failed: [Errno 111] Connection refused"
                    ++ [newline])],
        w', inl false)
  /\ connect MoreScenarios.no_socket_env self w
     = ([Stderr (py "Connection failed: [Errno 24] Too many open files"
                 ++ [newline])],
        w, inl false)
  /\ connect interrupted self w = (tried, w', inr interrupt)
  /\ (exists e : exn,
         (socket_new Scenarios.refusing_env = Some e
          \/ (socket_new Scenarios.refusing_env = None
              /\ socket_connect Scenarios.refusing_env (host self)
                                (port self) = Some e))
         /\ is_Exception e = true
         /\ stderr_of (Eff.trace_of (connect Scenarios.refusing_env self w))
            = [py "Connection failed: " ++ msg e ++ [newline]])
  /\ socket (Eff.world_of (connect Scenarios.refusing_env self w))
     = Some Sock
  /\ Eff.world_of (connect MoreScenarios.no_socket_env self w) = w.
Proof.
  intros w w' self tried full interrupt interrupted.
  destruct (connect_reports_outcome Scenarios.peer_env self w)
    as (_ & H2 & _).
  destruct (connect_reports_outcome Scenarios.refusing_env self w)
    as (_ & _ & _ & H4 & H5 & _ & H7 & _).
  destruct (connect_reports_outcome MoreScenarios.no_socket_env self w)
    as (_ & _ & H3 & _ & _ & _ & _ & H8).
  destruct (connect_reports_outcome interrupted self w)
    as (_ & _ & _ & H4' & _).
  split; [exact (H2 eq_refl eq_refl)|].
  split; [exact (H4 Scenarios.refused eq_refl eq_refl)|].
  split; [exact (H3 full eq_refl)|].
  split; [exact (H4' interrupt eq_refl eq_refl)|].
  split; [exact (H5 eq_refl)|].
  split; [exact (H7 eq_refl)|].
  apply H8. discriminate.
Defined.

(** X12.  Without a socket neither loop touches the network or standard
    output: [forward_socket_to_stdio] writes [Socket is not connected.]
    and returns at once; [forward_stdio_to_socket] does so at the first
    line it reads, and returns silently when standard input is at its
    end. *)
Theorem loops_without_socket (env : Env) (stdin : list bytes)
        (recvs : list recv_item) (w : World) :
  socket w = None ->
  let diag := Stderr (py "Socket is not connected." ++ [newline]) in
  forward_socket_to_stdio recvs w = ([diag], w, inl tt)
  /\ forward_stdio_to_socket env stdin w
     = (match lines_before_eof stdin with
        | [] => []
        | _ :: _ => [diag]
        end, w, inl tt).
Proof.
  intros Hs diag. split.
  - unfold forward_socket_to_stdio, Eff.try_except.
    destruct recvs as [|r recvs]; cbn [socket_to_stdio_loop];
      unfold Eff.bind, Eff.get; rewrite Hs; reflexivity.
  - unfold forward_stdio_to_socket, Eff.try_except.
    destruct stdin as [|[|b line] stdin];
      cbn [stdio_to_socket_loop lines_before_eof]; try reflexivity.
    unfold Eff.bind, Eff.get. rewrite Hs. reflexivity.
Qed.

Lemma loops_without_socket_witness :
  let w := {| socket := None; sends := 0 |} in
  let diag := Stderr (py "Socket is not connected." ++ [newline]) in
  forward_socket_to_stdio [Data Scenarios.hello] w = ([diag], w, inl tt)
  /\ forward_stdio_to_socket Scenarios.peer_env
                             [Scenarios.ping; Scenarios.pong] w
     = ([diag], w, inl tt).
Proof.
  intros w diag.
  exact (loops_without_socket Scenarios.peer_env
           [Scenarios.ping; Scenarios.pong] [Data Scenarios.hello] w
           eq_refl).
Defined.

(** X13.  The forwarding loops report an [Exception] instead of raising
    it.  With the socket connected, a write that raises an [Exception]
    ends [forward_stdio_to_socket] after one [Error forwarding to socket]
    diagnostic, and a read that raises one ends
    [forward_socket_to_stdio] after one [Error forwarding to stdio]
    diagnostic; both then return normally.  Nothing but an exception
    outside [Exception] leaves either loop. *)
Theorem forwarding_errors_reported (env : Env) (stdin : list bytes)
        (recvs : list recv_item) (w : World) :
  socket w <> None ->
  (forall e : exn,
      send_error env (sends w) stdin = Some e ->
      is_Exception e = true ->
      Eff.trace_of (forward_stdio_to_socket env stdin w)
      = map Sendall (attempted env (sends w) stdin)
        ++ [Stderr (py "Error forwarding to socket: " ++ msg e
                    ++ [newline])]
      /\ Eff.result_of (forward_stdio_to_socket env stdin w) = inl tt)
  /\ (forall e : exn,
         recv_error recvs = Some e ->
         is_Exception e = true ->
         forward_socket_to_stdio recvs w
         = (flat_map relay (chunks_before_end recvs)
            ++ [Recv 4096;
                Stderr (py "Error forwarding to stdio: " ++ msg e
                        ++ [newline])],
            w, inl tt))
  /\ (forall e : exn,
         Eff.result_of (forward_stdio_to_socket env stdin w) = inr e ->
         is_Exception e = false)
  /\ (forall e : exn,
         Eff.result_of (forward_socket_to_stdio recvs w) = inr e ->
         is_Exception e = false).
Proof.
  intros Hs.
  assert (Hstdin :
            forward_stdio_to_socket env stdin w
            = match send_error env (sends w) stdin with
              | None =>
                  (map Sendall (attempted env (sends w) stdin),
                   {| socket := socket w;
                      sends := sends w
                               + List.length
                                   (attempted env (sends w) stdin) |},
                   inl tt)
              | Some e =>
                  if is_Exception e
                  then (map Sendall (attempted env (sends w) stdin)
                        ++ [Stderr (py "Error forwarding to socket: "
                                    ++ msg e ++ [newline])],
                        {| socket := socket w;
                           sends := sends w
                                    + List.length
                                        (attempted env (sends w) stdin) |},
                        inl tt)
                  else (map Sendall (attempted env (sends w) stdin),
                        {| socket := socket w;
                           sends := sends w
                                    + List.length
                                        (attempted env (sends w) stdin) |},
                        inr e)
              end).
  { unfold forward_stdio_to_socket, Eff.try_except.
    rewrite (stdio_to_socket_loop_spec env stdin w Hs).
    destruct (send_error env (sends w) stdin) as [e|]; [|reflexivity].
    destruct (is_Exception e); [|reflexivity].
    unfold print_stderr, Eff.emit. now rewrite <- !app_assoc. }
  split; [|split; [|split]].
  - intros e He Hx. rewrite Hstdin, He, Hx. now split.
  - intros e He Hx.
    now rewrite (forward_socket_to_stdio_spec recvs w Hs), He, Hx.
  - intros e. rewrite Hstdin.
    destruct (send_error env (sends w) stdin) as [e'|]; [|discriminate].
    destruct (is_Exception e') eqn:Hx; [discriminate|].
    cbn. now intros [= <-].
  - intros e. rewrite (forward_socket_to_stdio_spec recvs w Hs).
    destruct (recv_error recvs) as [e'|]; [|discriminate].
    destruct (is_Exception e') eqn:Hx; [discriminate|].
    cbn. now intros [= <-].
Qed.

Lemma forwarding_errors_reported_witness :
  let w := {| socket := Some Sock; sends := 0 |} in
  let stdin := [Scenarios.ping; Scenarios.pong; Scenarios.hello] in
  let reset := Exn OSError (py "[Errno 104] Connection reset by peer") in
  let recvs := [Data Scenarios.hello; RecvRaises reset] in
  Eff.trace_of (forward_stdio_to_socket Scenarios.broken_pipe_env stdin w)
  = [Sendall Scenarios.ping; Sendall Scenarios.pong;
     Stderr (py "Error forwarding to socket: [Errno 32] Broken pipe"
             ++ [newline])]
  /\ Eff.result_of
       (forward_stdio_to_socket Scenarios.broken_pipe_env stdin w) = inl tt
  /\ forward_socket_to_stdio recvs w
     = ([Recv 4096; StdoutWrite Scenarios.hello; StdoutFlush; Recv 4096;
         Stderr (py "Error forwarding to stdio: " ++ msg reset
                 ++ [newline])],
        w, inl tt).
Proof.
  intros w stdin reset recvs.
  assert (Hs : socket w <> None) by discriminate.
  destruct (forwarding_errors_reported Scenarios.broken_pipe_env stdin
              recvs w Hs) as (H1 & H2 & _).
  destruct (H1 (Exn OSError (py "[Errno 32] Broken pipe")) eq_refl eq_refl)
    as [H1a H1b].
  split; [exact H1a|]. split; [exact H1b|].
  exact (H2 reset eq_refl eq_refl).
Defined.

(** X14.  The socket is closed last, or not at all.  Once the connection
    is established, the close of the socket is the last event of the main
    thread, after every [recv]; when the socket cannot be created or
    connected, no close is ever called. *)
Theorem socket_closed_last_or_never (env : Env) (host : pystr) (port : Z)
        (stdin : list bytes) (recvs : list recv_item) :
  let p := main env host port stdin recvs in
  (socket_new env = None ->
   socket_connect env host port = None ->
   exists body : list event,
     main_events p = body ++ [SocketClose] /\ closes_of body = 0)
  /\ (forall e : exn,
         socket_new env = Some e
         \/ (socket_new env = None
             /\ socket_connect env host port = Some e) ->
         closes_of (main_events p) = 0).
Proof.
  cbv zeta. split.
  - intros H1 H2. unfold main, init.
    rewrite (run_connected env {| host := host; port := port |} recvs
               {| socket := None; sends := 0 |} H1 H2).
    cbv zeta. unfold Eff.trace_of at 1. cbn [fst main_events sends].
    rewrite app_assoc. eexists. split; [reflexivity|].
    rewrite closes_of_app.
    destruct (thread_start env); [reflexivity|].
    rewrite forward_socket_to_stdio_no_close by discriminate. reflexivity.
  - intros e H. unfold main, init.
    destruct (run_not_connected env {| host := host; port := port |}
                recvs {| socket := None; sends := 0 |} e H) as [w1 Hr].
    rewrite Hr. unfold Eff.trace_of. cbn [fst main_events].
    destruct (socket_new env); destruct (is_Exception e); reflexivity.
Qed.

Lemma socket_closed_last_or_never_witness :
  (exists body : list event,
      main_events (main Scenarios.peer_env Scenarios.gateway_host 8080
                        [Scenarios.ping] [Data Scenarios.hello])
      = body ++ [SocketClose] /\ closes_of body = 0)
  /\ closes_of
       (main_events (main MoreScenarios.no_socket_env
                          Scenarios.gateway_host 8080 [Scenarios.ping]
                          [Data Scenarios.hello])) = 0.
Proof.
  split.
  - exact (proj1 (socket_closed_last_or_never
                    Scenarios.peer_env Scenarios.gateway_host 8080
                    [Scenarios.ping] [Data Scenarios.hello])
                 eq_refl eq_refl).
  - apply (proj2 (socket_closed_last_or_never
                    MoreScenarios.no_socket_env Scenarios.gateway_host 8080
                    [Scenarios.ping] [Data Scenarios.hello])
                 (Exn OSError (py "[Errno 24] Too many open files"))).
    left. reflexivity.
Defined.



(** X17.  What the main thread does once connected and the thread is
    started: it relays the chunks of the socket, makes the [recv] that
    ends the loop, writes one diagnostic if that [recv] raised an
    [Exception] (none for the closed socket or an interrupt) and closes
    the socket. *)
Theorem main_thread_events (env : Env) (host : pystr) (port : Z)
        (stdin : list bytes) (recvs : list recv_item) :
  socket_new env = None ->
  socket_connect env host port = None ->
  thread_start env = None ->
  main_events (main env host port stdin recvs)
  = [SocketNew; Connect host port; ThreadStart]
    ++ flat_map relay (chunks_before_end recvs)
    ++ [Recv 4096]
    ++ match recv_error recvs with
       | Some e =>
           if is_Exception e
           then [Stderr (py "Error forwarding to stdio: " ++ msg e
                         ++ [newline])]
           else []
       | None => []
       end
    ++ [SocketClose].
Proof.
  intros H1 H2 H3. unfold main, init.
  rewrite (run_connected env {| host := host; port := port |} recvs
             {| socket := None; sends := 0 |} H1 H2).
  cbv zeta. rewrite H3.
  rewrite forward_socket_to_stdio_spec by discriminate.
  unfold Eff.trace_of at 1.
  cbn [fst main_events MCPNetworkBridge.host MCPNetworkBridge.port].
  destruct (recv_error recvs) as [e|]; [destruct (is_Exception e)|];
    unfold Eff.trace_of; cbn [fst]; now rewrite <- !app_assoc.
Qed.

Lemma main_thread_events_witness :
  main_events (main Scenarios.peer_env Scenarios.gateway_host 8080
                    [Scenarios.ping]
                    [Data Scenarios.hello;
                     RecvRaises (Exn KeyboardInterrupt [])])
  = [SocketNew; Connect Scenarios.gateway_host 8080; ThreadStart;
     Recv 4096; StdoutWrite Scenarios.hello; StdoutFlush; Recv 4096;
     SocketClose].
Proof.
  exact (main_thread_events Scenarios.peer_env Scenarios.gateway_host 8080
           [Scenarios.ping]
           [Data Scenarios.hello; RecvRaises (Exn KeyboardInterrupt [])]
           eq_refl eq_refl eq_refl).
Defined.

(** X18.  An interrupt while the connection is being established is not
    handled: [connect] catches [Exception] only and [run] calls it
    outside its [try], so the exception leaves the process, without a
    diagnostic, without a close of the socket, and with its own exit
    status. *)
Theorem interrupted_connect_escapes (env : Env) (host : pystr) (port : Z)
        (stdin : list bytes) (recvs : list recv_item) (e : exn) :
  socket_new env = None ->
  socket_connect env host port = Some e ->
  is_Exception e = false ->
  let p := main env host port stdin recvs in
  main_events p = [SocketNew; Connect host port]
  /\ thread_events p = []
  /\ status p = exit_status (@inr unit exn e).
Proof.
  intros H1 H2 He. cbv zeta. unfold main, init.
  destruct (run_not_connected env {| host := host; port := port |}
              recvs {| socket := None; sends := 0 |} e
              (or_intror (conj H1 H2))) as [w1 Hr].
  rewrite Hr, H1, He. unfold Eff.trace_of, Eff.result_of.
  cbn [fst snd main_events thread_events status MCPNetworkBridge.host
       MCPNetworkBridge.port app].
  unfold thread_started. now cbn.
Qed.

Lemma interrupted_connect_escapes_witness :
  let interrupt := Exn KeyboardInterrupt [] in
  let env := {| socket_new := None;
                socket_connect := fun _ _ => Some interrupt;
                socket_sendall := fun _ _ => None;
                thread_start := None;
                thread_reading_at_exit := false |} in
  let p := main env Scenarios.gateway_host 8080 [Scenarios.ping]
                [Data Scenarios.hello] in
  main_events p = [SocketNew; Connect Scenarios.gateway_host 8080]
  /\ thread_events p = []
  /\ status p = 130%Z.
Proof.
  intros interrupt env.
  exact (interrupted_connect_escapes env Scenarios.gateway_host 8080
           [Scenarios.ping] [Data Scenarios.hello] interrupt
           eq_refl eq_refl eq_refl).
Defined.
End NetworkMore.
